(** * Verification of the qckfx agent execution engine

    Shallow embedding of
    - [src/server/services/ToolExecutionManagerImpl.ts] (module [TEM]),
    - [src/core/AgentRunner.ts], [processQuery] (module [Runner]),
    - [src/server/services/AgentService.ts]: its state and [resolvePermission]
      (module [Service]), the tool-execution callbacks, the permission
      handler and [abortOperation] (module [AgentServiceOps]), and
      [processQuery] driving an agent run (module [AgentServiceRun]).

    JavaScript [Map]s keyed by strings are stdpp [gmap string _]; a JS [Set]
    of ids, iterated in insertion order, is a duplicate-free [list string].
    Code that throws is modelled in a state-and-exception monad in which a
    throw keeps the state reached so far (JS mutations are not rolled back). *)

From Stdlib Require Import ZArith Lia Ascii.
From stdpp Require Import base gmap list strings pretty.

Local Open Scope string_scope.
Local Open Scope list_scope.

(** Results of fallible code: a value, or an [Error] carrying its message. *)
Inductive Exc (A : Type) : Type :=
| Ok (a : A)
| Throw (msg : string).
Arguments Ok {A} a.
Arguments Throw {A} msg.

Definition is_ok {A} (r : Exc A) : bool :=
  match r with Ok _ => true | Throw _ => false end.

(** [Set.prototype.add]: appends an id not yet present. *)
Definition set_add (x : string) (l : list string) : list string :=
  if bool_decide (x ∈ l) then l else l ++ [x].

(** String concatenation (JS template literals). *)
Notation "a +s b" := (String.append a b) (at level 60, right associativity).

Module TEM.

(** [ToolExecutionStatus] *)
Inductive ToolExecutionStatus :=
| PENDING | RUNNING | AWAITING_PERMISSION | COMPLETED | ERROR | ABORTED.

Definition status_eqb (a b : ToolExecutionStatus) : bool :=
  match a, b with
  | PENDING, PENDING | RUNNING, RUNNING
  | AWAITING_PERMISSION, AWAITING_PERMISSION
  | COMPLETED, COMPLETED | ERROR, ERROR | ABORTED, ABORTED => true
  | _, _ => false
  end.

(** The spec's terminal statuses. *)
Definition is_terminal (s : ToolExecutionStatus) : bool :=
  match s with COMPLETED | ERROR | ABORTED => true | _ => false end.

(** Tool arguments and results are JSON values; we keep their serialised
    text. Times ([toISOString]) are kept as epoch milliseconds. *)
Definition Json := string.

(** [{ message: error.message, stack: error.stack }] *)
Record ExecError := mkExecError { err_message : string; err_stack : option string }.

(** [ToolExecutionState] *)
Record ToolExecutionState := mkExec {
  exec_id : string;
  exec_sessionId : string;
  exec_toolId : string;
  exec_toolName : string;
  exec_status : ToolExecutionStatus;
  exec_args : Json;
  exec_result : option Json;
  exec_error : option ExecError;
  exec_startTime : Z;
  exec_endTime : option Z;
  exec_executionTime : option Z;
  exec_summary : option string;
  exec_previewId : option string
}.

(** [Partial<ToolExecutionState>] for the fields the code updates; a [None]
    field is absent from the update object. *)
Record ExecUpdate := mkUpdate {
  u_status : option ToolExecutionStatus;
  u_result : option Json;
  u_error : option ExecError;
  u_endTime : option Z;
  u_executionTime : option Z;
  u_summary : option string;
  u_previewId : option string
}.

Definition no_update : ExecUpdate := mkUpdate None None None None None None None.

Definition over {A} (u : option A) (x : A) : A :=
  match u with Some y => y | None => x end.
Definition over_opt {A} (u : option A) (x : option A) : option A :=
  match u with Some y => Some y | None => x end.

(** [{ ...execution, ...updates }] *)
Definition spread (e : ToolExecutionState) (u : ExecUpdate) : ToolExecutionState :=
  mkExec (exec_id e) (exec_sessionId e) (exec_toolId e) (exec_toolName e)
    (over (u_status u) (exec_status e)) (exec_args e)
    (over_opt (u_result u) (exec_result e)) (over_opt (u_error u) (exec_error e))
    (exec_startTime e) (over_opt (u_endTime u) (exec_endTime e))
    (over_opt (u_executionTime u) (exec_executionTime e))
    (over_opt (u_summary u) (exec_summary e)) (over_opt (u_previewId u) (exec_previewId e)).

(** [PermissionRequestState] *)
Record PermissionRequestState := mkPerm {
  perm_id : string;
  perm_sessionId : string;
  perm_toolId : string;
  perm_toolName : string;
  perm_args : Json;
  perm_requestTime : Z;
  perm_executionId : string;
  perm_resolvedTime : option Z;
  perm_granted : option bool
}.

(** [ToolExecutionEvent] payloads, as emitted. *)
Inductive ManagerEvent :=
| EvCreated (e : ToolExecutionState)
| EvUpdated (e : ToolExecutionState)
| EvCompleted (e : ToolExecutionState)
| EvError (e : ToolExecutionState)
| EvAborted (e : ToolExecutionState)
| EvPermissionRequested (e : option ToolExecutionState) (p : PermissionRequestState)
| EvPermissionResolved (e : option ToolExecutionState) (p : PermissionRequestState).

(** The fields of [ToolExecutionManagerImpl], plus the emitted events, the
    clock read by [new Date()] and the name supply of [uuidv4]. *)
Record Manager := mkManager {
  executions : gmap string ToolExecutionState;
  sessionExecutions : gmap string (list string);
  permissionRequests : gmap string PermissionRequestState;
  sessionPermissions : gmap string (list string);
  executionPermissions : gmap string string;
  events : list ManagerEvent;
  clock : Z;
  uuid_next : N
}.

(** The part of the state the claims call "manager state". *)
Definition maps_of (s : Manager) :=
  (executions s, sessionExecutions s, permissionRequests s,
   sessionPermissions s, executionPermissions s).

Definition empty_manager : Manager := mkManager ∅ ∅ ∅ ∅ ∅ [] 0 0.

(** ** State-and-exception monad *)
Definition M (A : Type) := Manager -> Exc A * Manager.

Definition ret {A} (a : A) : M A := fun s => (Ok a, s).
Definition throw {A} (msg : string) : M A := fun s => (Throw msg, s).
Definition bind {A B} (m : M A) (k : A -> M B) : M B :=
  fun s => match m s with
           | (Ok a, s') => k a s'
           | (Throw e, s') => (Throw e, s')
           end.
Definition gets {A} (f : Manager -> A) : M A := fun s => (Ok (f s), s).
Definition modify (f : Manager -> Manager) : M unit := fun s => (Ok tt, f s).

Notation "x <- m ;; k" := (bind m (fun x => k))
  (at level 100, m at next level, right associativity).
Notation "m ;;; k" := (bind m (fun _ => k)) (at level 100, right associativity).

Definition set_executions f s :=
  mkManager (f (executions s)) (sessionExecutions s) (permissionRequests s)
    (sessionPermissions s) (executionPermissions s) (events s) (clock s) (uuid_next s).
Definition set_sessionExecutions f s :=
  mkManager (executions s) (f (sessionExecutions s)) (permissionRequests s)
    (sessionPermissions s) (executionPermissions s) (events s) (clock s) (uuid_next s).
Definition set_permissionRequests f s :=
  mkManager (executions s) (sessionExecutions s) (f (permissionRequests s))
    (sessionPermissions s) (executionPermissions s) (events s) (clock s) (uuid_next s).
Definition set_sessionPermissions f s :=
  mkManager (executions s) (sessionExecutions s) (permissionRequests s)
    (f (sessionPermissions s)) (executionPermissions s) (events s) (clock s) (uuid_next s).
Definition set_executionPermissions f s :=
  mkManager (executions s) (sessionExecutions s) (permissionRequests s)
    (sessionPermissions s) (f (executionPermissions s)) (events s) (clock s) (uuid_next s).

(** [this.emitEvent(...)] *)
Definition emitEvent (ev : ManagerEvent) : M unit :=
  modify (fun s => mkManager (executions s) (sessionExecutions s) (permissionRequests s)
    (sessionPermissions s) (executionPermissions s) (events s ++ [ev]) (clock s) (uuid_next s)).

(** [uuidv4()]: a fresh identifier from the name supply. *)
Definition uuidv4 : M string :=
  fun s => (Ok ("uuid-" +s pretty (uuid_next s)),
            mkManager (executions s) (sessionExecutions s) (permissionRequests s)
              (sessionPermissions s) (executionPermissions s) (events s) (clock s)
              (uuid_next s + 1)%N).

(** [new Date()] *)
Definition now : M Z := gets clock.

(** [if (!this.X.has(k)) this.X.set(k, new Set()); this.X.get(k)!.add(id)] *)
Definition index_add (k id : string) (m : gmap string (list string)) :=
  <[k := set_add id (default [] (m !! k))]> m.

(** [const execution = this.executions.get(executionId);
     if (!execution) throw new Error(`Tool execution not found: ...`)] *)
Definition getExecutionOrThrow (executionId : string) : M ToolExecutionState :=
  fun s => match executions s !! executionId with
           | Some e => (Ok e, s)
           | None => (Throw ("Tool execution not found: " +s executionId), s)
           end.

(** [createExecution] *)
Definition createExecution (sessionId toolId toolName : string) (args : Json)
  : M ToolExecutionState :=
  id <- uuidv4 ;;
  t <- now ;;
  let execution := mkExec id sessionId toolId toolName PENDING args
                     None None t None None None None in
  modify (set_executions (insert id execution)) ;;;
  modify (set_sessionExecutions (index_add sessionId id)) ;;;
  emitEvent (EvCreated execution) ;;;
  ret execution.

(** [updateExecution] *)
Definition updateExecution (executionId : string) (updates : ExecUpdate)
  : M ToolExecutionState :=
  execution <- getExecutionOrThrow executionId ;;
  let updatedExecution := spread execution updates in
  modify (set_executions (insert executionId updatedExecution)) ;;;
  emitEvent (EvUpdated updatedExecution) ;;;
  ret updatedExecution.

Definition status_update (st : ToolExecutionStatus) : ExecUpdate :=
  mkUpdate (Some st) None None None None None None.

(** [updateStatus] *)
Definition updateStatus (executionId : string) (status : ToolExecutionStatus) :=
  updateExecution executionId (status_update status).

(** [startExecution] *)
Definition startExecution (executionId : string) := updateStatus executionId RUNNING.

(** [completeExecution] *)
Definition completeExecution (executionId : string) (result : Json) (executionTime : Z)
  : M ToolExecutionState :=
  _ <- getExecutionOrThrow executionId ;;
  endTime <- now ;;
  updatedExecution <- updateExecution executionId
    (mkUpdate (Some COMPLETED) (Some result) None (Some endTime) (Some executionTime) None None) ;;
  emitEvent (EvCompleted updatedExecution) ;;;
  ret updatedExecution.

(** [failExecution] *)
Definition failExecution (executionId : string) (error : ExecError) : M ToolExecutionState :=
  execution <- getExecutionOrThrow executionId ;;
  endTime <- now ;;
  let executionTime := (endTime - exec_startTime execution)%Z in
  updatedExecution <- updateExecution executionId
    (mkUpdate (Some ERROR) None (Some error) (Some endTime) (Some executionTime) None None) ;;
  emitEvent (EvError updatedExecution) ;;;
  ret updatedExecution.

(** [abortExecution] *)
Definition abortExecution (executionId : string) : M ToolExecutionState :=
  execution <- getExecutionOrThrow executionId ;;
  endTime <- now ;;
  let executionTime := (endTime - exec_startTime execution)%Z in
  updatedExecution <- updateExecution executionId
    (mkUpdate (Some ABORTED) None None (Some endTime) (Some executionTime) None None) ;;
  emitEvent (EvAborted updatedExecution) ;;;
  ret updatedExecution.

(** [requestPermission] *)
Definition requestPermission (executionId : string) (args : Json) : M PermissionRequestState :=
  execution <- getExecutionOrThrow executionId ;;
  id <- uuidv4 ;;
  t <- now ;;
  let permissionRequest :=
    mkPerm id (exec_sessionId execution) (exec_toolId execution) (exec_toolName execution)
      args t executionId None None in
  modify (set_permissionRequests (insert id permissionRequest)) ;;;
  modify (set_sessionPermissions (index_add (exec_sessionId execution) id)) ;;;
  modify (set_executionPermissions (insert executionId id)) ;;;
  updateStatus executionId AWAITING_PERMISSION ;;;
  e <- gets (fun s => executions s !! executionId) ;;
  emitEvent (EvPermissionRequested e permissionRequest) ;;;
  ret permissionRequest.

(** [resolvePermission] *)
Definition resolvePermission (permissionId : string) (granted : bool)
  : M PermissionRequestState :=
  permissionRequest <- gets (fun s => permissionRequests s !! permissionId) ;;
  match permissionRequest with
  | None => throw ("Permission request not found: " +s permissionId)
  | Some permissionRequest =>
      t <- now ;;
      let updatedPermission :=
        mkPerm (perm_id permissionRequest) (perm_sessionId permissionRequest)
          (perm_toolId permissionRequest) (perm_toolName permissionRequest)
          (perm_args permissionRequest) (perm_requestTime permissionRequest)
          (perm_executionId permissionRequest) (Some t) (Some granted) in
      modify (set_permissionRequests (insert permissionId updatedPermission)) ;;;
      let executionId := perm_executionId permissionRequest in
      (if granted then updateStatus executionId RUNNING
       else failExecution executionId (mkExecError "Permission denied" None)) ;;;
      e <- gets (fun s => executions s !! executionId) ;;
      emitEvent (EvPermissionResolved e updatedPermission) ;;;
      ret updatedPermission
  end.

(** [resolvePermissionByExecutionId]; [!permissionId] also rejects the empty string. *)
Definition resolvePermissionByExecutionId (executionId : string) (granted : bool)
  : M PermissionRequestState :=
  permissionId <- gets (fun s => executionPermissions s !! executionId) ;;
  match permissionId with
  | Some pid =>
      if String.eqb pid EmptyString then
        throw ("No permission request found for execution: " +s executionId)
      else resolvePermission pid granted
  | None => throw ("No permission request found for execution: " +s executionId)
  end.

(** [getExecutionsForSession] *)
Definition getExecutionsForSession (sessionId : string) (s : Manager) : list ToolExecutionState :=
  omap (fun id => executions s !! id) (default [] (sessionExecutions s !! sessionId)).

(** [getPermissionRequestForExecution] *)
Definition getPermissionRequestForExecution (executionId : string) (s : Manager)
  : option PermissionRequestState :=
  match executionPermissions s !! executionId with
  | Some pid => if String.eqb pid EmptyString then None else permissionRequests s !! pid
  | None => None
  end.

(** [associatePreview] *)
Definition associatePreview (executionId previewId : string) : M ToolExecutionState :=
  updateExecution executionId (mkUpdate None None None None None None (Some previewId)).

(** [getExecution] *)
Definition getExecution (executionId : string) (s : Manager) : option ToolExecutionState :=
  executions s !! executionId.

(** [getPermissionRequestsForSession] *)
Definition getPermissionRequestsForSession (sessionId : string) (s : Manager)
  : list PermissionRequestState :=
  omap (fun id => permissionRequests s !! id) (default [] (sessionPermissions s !! sessionId)).

(** One pass of the permission loop of [clearSessionData]: drop the link of
    the request's execution, then the request. *)
Definition clear_permission (s : Manager) (id : string) : Manager :=
  let s' := match permissionRequests s !! id with
            | Some permission => set_executionPermissions (delete (perm_executionId permission)) s
            | None => s
            end in
  set_permissionRequests (delete id) s'.

(** [clearSessionData] *)
Definition clearSessionData (sessionId : string) (s : Manager) : Manager :=
  let executionIds := default [] (sessionExecutions s !! sessionId) in
  let s1 := set_executions (fun m => foldl (fun m id => delete id m) m executionIds) s in
  let s2 := set_sessionExecutions (delete sessionId) s1 in
  let permissionIds := default [] (sessionPermissions s2 !! sessionId) in
  let s3 := foldl clear_permission s2 permissionIds in
  set_sessionPermissions (delete sessionId) s3.

(** The persisted session record ([SessionData] of [SessionStatePersistence],
    not part of src/), with the fields [saveSessionData] and
    [loadSessionData] read or write. *)
Record SessionData := mkSessionData {
  sd_id : string;
  sd_name : string;
  sd_createdAt : Z;
  sd_updatedAt : Z;
  sd_toolExecutions : list ToolExecutionState;
  sd_permissionRequests : list PermissionRequestState
}.

(** [saveSessionData]: [loaded] is what [persistence.loadSession] returned;
    the result is the record handed to [persistence.saveSession]. *)
Definition saveSessionData (sessionId : string) (loaded : option SessionData) (s : Manager)
  : SessionData :=
  let now := clock s in
  let sessionData := match loaded with
                     | Some d => d
                     | None => mkSessionData sessionId ("Session " +s sessionId) now now [] []
                     end in
  mkSessionData (sd_id sessionData) (sd_name sessionData) (sd_createdAt sessionData) now
    (getExecutionsForSession sessionId s) (getPermissionRequestsForSession sessionId s).

(** Body of the execution loop of [loadSessionData]. *)
Definition load_execution (sessionId : string) (s : Manager) (execution : ToolExecutionState)
  : Manager :=
  set_sessionExecutions (index_add sessionId (exec_id execution))
    (set_executions (insert (exec_id execution) execution) s).

(** Body of the permission loop of [loadSessionData]; only a request
    without [resolvedTime] is linked to its execution. *)
Definition load_permission (sessionId : string) (s : Manager) (permission : PermissionRequestState)
  : Manager :=
  let s1 := set_sessionPermissions (index_add sessionId (perm_id permission))
              (set_permissionRequests (insert (perm_id permission) permission) s) in
  match perm_resolvedTime permission with
  | None => set_executionPermissions (insert (perm_executionId permission) (perm_id permission)) s1
  | Some _ => s1
  end.

(** [loadSessionData]: [loaded] is what [persistence.loadSession] returned. *)
Definition loadSessionData (sessionId : string) (loaded : option SessionData) (s : Manager)
  : Manager :=
  match loaded with
  | None => s
  | Some sessionData =>
    let s1 := clearSessionData sessionId s in
    let s2 := foldl (load_execution sessionId) s1 (sd_toolExecutions sessionData) in
    foldl (load_permission sessionId) s2 (sd_permissionRequests sessionData)
  end.

(** Status of an execution in a state, for stating properties. *)
Definition status_of (executionId : string) (s : Manager) : option ToolExecutionStatus :=
  exec_status <$> executions s !! executionId.

End TEM.

Module Runner.

(** ** Conversation data ([src/types/model]) *)
Inductive Role := user | assistant.

Definition role_eqb (a b : Role) : bool :=
  match a, b with user, user | assistant, assistant => true | _, _ => false end.

(** Content parts: [text], [tool_use], [tool_result]. *)
Inductive ContentPart :=
| Text (text : string)
| ToolUse (id name : string) (input : TEM.Json)
| ToolResult (tool_use_id : string) (content : string).

Record Message := mkMsg { role : Role; content : list ContentPart }.

(** [ToolCall] chosen by the model. *)
Record ToolCall := mkToolCall { toolId : string; toolUseId : string; args : TEM.Json }.

(** The model's final answer ([finalResponse]); a missing one is [None]. *)
Record ModelResponse := mkResponse { resp_content : list ContentPart }.

(** [getToolCall]'s answer. *)
Record ToolCallChat := mkChat {
  toolChosen : bool;
  toolCall : option ToolCall;
  response : option ModelResponse
}.

(** [sessionState.lastToolError] *)
Record ToolError := mkToolError { te_toolId : string; te_args : TEM.Json; te_error : string }.

(** [SessionState]; [tokenUsage] records whether the counters object is present. *)
Record SessionState := mkSS {
  conversationHistory : list Message;
  tokenUsage : bool;
  lastToolId : option string;
  lastToolUseId : option string;
  lastArgs : option TEM.Json;
  lastToolError : option ToolError;
  lastResult : option TEM.Json
}.

Definition set_history (h : list Message) (ss : SessionState) : SessionState :=
  mkSS h (tokenUsage ss) (lastToolId ss) (lastToolUseId ss) (lastArgs ss)
    (lastToolError ss) (lastResult ss).

(** [sessionState.conversationHistory.push(m)] *)
Definition push (m : Message) (ss : SessionState) : SessionState :=
  set_history (conversationHistory ss ++ [m]) ss.

(** [ToolResultEntry] *)
Record ToolResultEntry := mkEntry {
  tr_toolId : string; tr_args : TEM.Json; tr_result : TEM.Json; tr_toolUseId : string
}.

(** Calls made to the external collaborators, in order. *)
Inductive ExternalCall :=
| CallGetToolCall (query : string)
| CallExecute (toolId toolUseId : string)
| CallGenerateResponse (query : string).

(** [String.prototype.includes] *)
Fixpoint includes (needle hay : string) : bool :=
  if String.prefix needle hay then true
  else match hay with
       | EmptyString => false
       | String _ rest => includes needle rest
       end.

(** [errorObj.message && errorObj.message.includes('Invalid args')] *)
Definition is_validation_error (message : string) : bool :=
  negb (String.eqb message EmptyString) && includes "Invalid args" message.

Definition dq : string := String "034"%char EmptyString.
Definition nl_indent : string :=
  String "010"%char (String.concat EmptyString (repeat " " 34)).

(** The corrective prompt of the validation path. *)
Definition fixPrompt (toolName message query : string) (args : TEM.Json) : string :=
  "The tool " +s toolName +s " reported an error: " +s dq +s message +s dq
  +s nl_indent +s "Please provide corrected arguments for this tool to answer the query: " +s query
  +s nl_indent +s "Previous incorrect args: " +s args.

Definition nextPrompt (toolName query : string) : string :=
  "Based on the result of using " +s toolName +s ", what should I do next to answer: " +s query.

Definition maxIterations : nat := 15.

(** Local state of one [processQuery] call. *)
Record LoopState := mkLS {
  iterations : nat;
  currentQuery : string;
  toolResults : list ToolResultEntry;
  finalResponse : option ModelResponse;
  sessionState : SessionState;
  log : list ExternalCall
}.

Definition with_log (l : list ExternalCall) (st : LoopState) : LoopState :=
  mkLS (iterations st) (currentQuery st) (toolResults st) (finalResponse st) (sessionState st) l.
Definition with_final (r : option ModelResponse) (st : LoopState) : LoopState :=
  mkLS (iterations st) (currentQuery st) (toolResults st) r (sessionState st) (log st).

Inductive BodyOutcome :=
| BContinue (st : LoopState)
| BBreak (st : LoopState)
| BThrow (e : string) (st : LoopState).

Inductive IterOutcome :=
| IContinue (st : LoopState)
| IBreak (st : LoopState)
| IEscape (e : string) (st : LoopState).

Inductive LoopOutcome :=
| LDone (st : LoopState)
| LEscape (e : string) (st : LoopState).

(** [ProcessQueryResult]: [{result: {toolResults, iterations}, response, sessionState}]
    or [{error, sessionState}]; we add the log of external calls. *)
Inductive ProcessQueryResult :=
| PQOk (toolResults : list ToolResultEntry) (iterations : nat) (response : string)
       (ss : SessionState) (log : list ExternalCall)
| PQError (error : string) (ss : SessionState) (log : list ExternalCall).

Definition pq_log (r : ProcessQueryResult) : list ExternalCall :=
  match r with PQOk _ _ _ _ l => l | PQError _ _ l => l end.

(** Whether the query is appended: empty history, or last entry not a user message. *)
Definition should_append (h : list Message) : bool :=
  match last h with
  | None => true
  | Some m => negb (role_eqb (role m) user)
  end.

(** Lines 115-118: the tool call is stored as learning context. *)
Definition record_call (tc : ToolCall) (ss : SessionState) : SessionState :=
  mkSS (conversationHistory ss) (tokenUsage ss) (Some (toolId tc)) (Some (toolUseId tc))
    (Some (args tc)) None (lastResult ss).

Definition set_lastToolError (te : ToolError) (ss : SessionState) : SessionState :=
  mkSS (conversationHistory ss) (tokenUsage ss) (lastToolId ss) (lastToolUseId ss)
    (lastArgs ss) (Some te) (lastResult ss).

Definition set_lastResult (r : TEM.Json) (ss : SessionState) : SessionState :=
  mkSS (conversationHistory ss) (tokenUsage ss) (lastToolId ss) (lastToolUseId ss)
    (lastArgs ss) (lastToolError ss) (Some r).

Section Collaborators.

(** [ModelClient.getToolCall], given the index of the external call (so that
    the model may answer differently each time), the prompt and the state.
    The tool catalog ([getToolDescriptions()]) is fixed and left implicit. *)
Variable getToolCall : nat -> string -> SessionState -> Exc ToolCallChat.
(** [ToolRegistry.getTool]: the registered tool's [name], if any. *)
Variable getTool : string -> option string.
(** [tool.execute(args, context)]: the context holds the session state, which
    the tool may modify; it returns a result or throws. *)
Variable execute : nat -> string -> TEM.Json -> SessionState -> Exc TEM.Json * SessionState.
(** [ModelClient.generateResponse] *)
Variable generateResponse : nat -> string -> SessionState -> Exc (option ModelResponse).
(** [manageConversationSize] ([src/utils/TokenManager], not part of src/):
    an arbitrary rewrite of the state. *)
Variable manageConversationSize : SessionState -> SessionState.

(** The [try] block of one iteration (lines 88-187). *)
Definition body (query : string) (st : LoopState) : BodyOutcome :=
  let ss := sessionState st in
  let cq := currentQuery st in
  let log1 := log st ++ [CallGetToolCall cq] in
  match getToolCall (length (log st)) cq ss with
  | Throw e => BThrow e (with_log log1 st)
  | Ok chat =>
    if negb (toolChosen chat) then BBreak (with_final (response chat) (with_log log1 st))
    else
    match toolCall chat with
    | None => BThrow "Cannot read properties of undefined (reading 'toolId')" (with_log log1 st)
    | Some tc =>
      match getTool (toolId tc) with
      | None => BThrow ("Tool " +s toolId tc +s " not found") (with_log log1 st)
      | Some name =>
        let ss1 := record_call tc ss in
        let '(r, ss2) := execute (length log1) (toolId tc) (args tc) ss1 in
        let log2 := log1 ++ [CallExecute (toolId tc) (toolUseId tc)] in
        match r with
        | Throw e =>
          if is_validation_error e then
            let fp := fixPrompt name e query (args tc) in
            let ss3 := push (mkMsg user [ToolResult (toolUseId tc) fp])
                         (set_lastToolError (mkToolError (toolId tc) (args tc) e) ss2) in
            BContinue (mkLS (iterations st) fp (toolResults st) (finalResponse st) ss3 log2)
          else BThrow e (mkLS (iterations st) cq (toolResults st) (finalResponse st) ss2 log2)
        | Ok result =>
          let ss3 := set_lastResult result ss2 in
          let ss4 := if String.eqb (toolUseId tc) EmptyString then ss3
                     else push (mkMsg user [ToolResult (toolUseId tc) result]) ss3 in
          BContinue (mkLS (iterations st) (nextPrompt name query)
                       (toolResults st ++ [mkEntry (toolId tc) (args tc) result (toolUseId tc)])
                       (finalResponse st) ss4 log2)
        end
      end
    end
  end.

(** One iteration with its [catch] (lines 188-206). *)
Definition iteration (query : string) (st : LoopState) : IterOutcome :=
  match body query st with
  | BContinue st' => IContinue st'
  | BBreak st' => IBreak st'
  | BThrow e st' =>
    match toolResults st' with
    | [] => IEscape e st'
    | _ :: _ =>
      let log' := log st' ++ [CallGenerateResponse query] in
      match generateResponse (length (log st')) query (sessionState st') with
      | Ok r => IBreak (with_final r (with_log log' st'))
      | Throw e2 => IEscape e2 (with_log log' st')
      end
    end
  end.

Definition incr (st : LoopState) : LoopState :=
  mkLS (S (iterations st)) (currentQuery st) (toolResults st) (finalResponse st)
    (sessionState st) (log st).

(** [while (iterations < maxIterations) { iterations++; ... }]. Run with fuel
    [maxIterations - iterations]: the fuel runs out exactly when the loop
    condition fails. *)
Fixpoint loop (fuel : nat) (query : string) (st : LoopState) : LoopOutcome :=
  match fuel with
  | O => LDone st
  | S f =>
    if Nat.ltb (iterations st) maxIterations then
      match iteration query (incr st) with
      | IContinue st' => loop f query st'
      | IBreak st' => LDone st'
      | IEscape e st' => LEscape e st'
      end
    else LDone st
  end.

(** Lines 221-245: record the answer and extract its text. *)
Definition complete (st : LoopState) (fr : option ModelResponse) : ProcessQueryResult :=
  let ss := sessionState st in
  let ss' := match fr with
             | Some r => match resp_content r with
                         | [] => ss
                         | c => push (mkMsg assistant c) ss
                         end
             | None => ss
             end in
  let responseText := match fr with
                      | Some r => match resp_content r with
                                  | Text t :: _ => t
                                  | _ => EmptyString
                                  end
                      | None => EmptyString
                      end in
  PQOk (toolResults st) (iterations st) responseText ss' (log st).

(** After the loop (lines 209-253); a throw reaches the outer [catch]. *)
Definition post (query : string) (o : LoopOutcome) : ProcessQueryResult :=
  match o with
  | LEscape e st => PQError e (sessionState st) (log st)
  | LDone st =>
    match finalResponse st with
    | Some r => complete st (Some r)
    | None =>
      let log' := log st ++ [CallGenerateResponse query] in
      match generateResponse (length (log st)) query (sessionState st) with
      | Throw e => PQError e (sessionState st) log'
      | Ok fr => complete (with_log log' st) fr
      end
    end
  end.

(** Lines 57-71: optional trimming, then the query is appended. *)
Definition prepare (query : string) (ss0 : SessionState) : SessionState :=
  let ss1 := if tokenUsage ss0 then manageConversationSize ss0 else ss0 in
  if should_append (conversationHistory ss1)
  then push (mkMsg user [Text query]) ss1
  else ss1.

(** The rest of a turn from a loop state. *)
Definition run_from (query : string) (st : LoopState) : ProcessQueryResult :=
  post query (loop (maxIterations - iterations st) query st).

(** Lines 46-50: the loop's initial state. *)
Definition init_state (query : string) (ss0 : SessionState) : LoopState :=
  mkLS 0 query [] None (prepare query ss0) [].

(** [processQuery(query, sessionState)] *)
Definition processQuery (query : string) (ss0 : SessionState) : ProcessQueryResult :=
  run_from query (init_state query ss0).

End Collaborators.

End Runner.

Module Service.

(** A session of [sessionManager]: its processing flag and agent state. *)
Record Session := mkSession { isProcessing : bool; state : Runner.SessionState }.

(** Entries of [activeTools]. *)
Record ActiveTool := mkActiveTool { at_toolId : string; at_executionId : string }.

(** Entries of the service's [permissionRequests]; calls of the stored
    [resolver] are recorded in [resolutions]. *)
Record PermissionRequest := mkPR { pr_sessionId : string; pr_toolId : string; pr_args : TEM.Json }.

(** [AgentServiceEvent]s emitted by the paths modelled here. *)
Inductive ServiceEvent :=
| PROCESSING_STARTED (sessionId : string)
| PROCESSING_COMPLETED (sessionId response : string)
| PROCESSING_ERROR (sessionId error : string)
| PERMISSION_RESOLVED (permissionId sessionId toolId : string) (granted : bool).

Inductive ServiceError :=
| AgentBusyError
| SessionNotFound (sessionId : string)
| ServerError (message : string)
(** An error thrown while the agent is set up ([createAnthropicProvider],
    [createAgent] and the calls after it, not part of src/), rethrown as is. *)
| AgentSetupError (message : string).

(** The fields of [AgentService] used here, with [sessionManager]'s sessions
    and the tool execution manager. *)
Record Service := mkService {
  sessions : gmap string Session;
  activeProcessingSessionIds : list string;
  activeTools : gmap string (list ActiveTool);
  permissionRequests : gmap string PermissionRequest;
  manager : TEM.Manager;
  svc_events : list ServiceEvent;
  resolutions : list (string * bool)
}.

Definition emit (ev : ServiceEvent) (s : Service) : Service :=
  mkService (sessions s) (activeProcessingSessionIds s) (activeTools s)
    (permissionRequests s) (manager s) (svc_events s ++ [ev]) (resolutions s).

Definition set_sessions f (s : Service) : Service :=
  mkService (f (sessions s)) (activeProcessingSessionIds s) (activeTools s)
    (permissionRequests s) (manager s) (svc_events s) (resolutions s).

Definition set_active f (s : Service) : Service :=
  mkService (sessions s) (f (activeProcessingSessionIds s)) (activeTools s)
    (permissionRequests s) (manager s) (svc_events s) (resolutions s).

Definition set_manager (m : TEM.Manager) (s : Service) : Service :=
  mkService (sessions s) (activeProcessingSessionIds s) (activeTools s)
    (permissionRequests s) m (svc_events s) (resolutions s).

(** [sessionManager.updateSession(id, { isProcessing: b })] *)
Definition setProcessing (sessionId : string) (b : bool) (s : Service) : Service :=
  set_sessions (fun m => match m !! sessionId with
                         | Some se => <[sessionId := mkSession b (state se)]> m
                         | None => m
                         end) s.

(** [session.isProcessing || this.activeProcessingSessionIds.has(sessionId)] *)
Definition busy (se : Session) (sessionId : string) (s : Service) : bool :=
  isProcessing se || bool_decide (sessionId ∈ activeProcessingSessionIds s).

(** [AgentService.resolvePermission] *)
Definition resolvePermission (permissionId : string) (granted : bool) (s : Service)
  : bool * Service :=
  match permissionRequests s !! permissionId with
  | None => (false, s)
  | Some request =>
    let s1 := mkService (sessions s) (activeProcessingSessionIds s) (activeTools s)
                (delete permissionId (permissionRequests s)) (manager s) (svc_events s)
                (resolutions s ++ [(permissionId, granted)]) in
    let sessionId := pr_sessionId request in
    let tools := default [] (activeTools s1 !! sessionId) in
    let fallback := (true, emit (PERMISSION_RESOLVED permissionId sessionId
                                   (pr_toolId request) granted) s1) in
    match list_find (fun t => at_toolId t = pr_toolId request) tools with
    | Some (_, t) =>
      if String.eqb (at_executionId t) EmptyString then fallback
      else
        let m := manager s1 in
        let pending :=
          omap (fun e => TEM.getPermissionRequestForExecution (TEM.exec_id e) m)
            (filter (fun e => TEM.status_eqb (TEM.exec_status e) TEM.AWAITING_PERMISSION = true)
               (TEM.getExecutionsForSession sessionId m)) in
        if existsb (fun p => String.eqb (TEM.perm_id p) permissionId) pending then
          match TEM.resolvePermission permissionId granted m with
          | (Ok _, m') => (true, set_manager m' s1)
          | (Throw _, m') => (false, set_manager m' s1)
          end
        else fallback
    | None => fallback
    end
  end.

End Service.

(** * The tool-execution callbacks, the permission handler and
    [abortOperation] of [AgentService] *)
Module AgentServiceOps.
Import Service.

(** [AgentServiceEvent]s emitted directly on the paths modelled here (the
    events of the manager are its own [events]). *)
Inductive ExtraEvent :=
| PROCESSING_ABORTED (sessionId : string) (abortTimestamp : Z)
| TOOL_EXECUTION_ABORTED (sessionId toolId : string) (executionId : option string)
    (abortTimestamp : Z)
| TOOL_EXECUTION_COMPLETED (sessionId toolId : string) (result : TEM.Json) (executionTime : Z)
| TOOL_EXECUTION_ERROR (sessionId toolId : string) (error : TEM.ExecError).

(** Fields of [AgentService] not in [Service]: [activeToolArgs], the abort
    marks written into [session.state] ([__aborted] with
    [__abortTimestamp]), and the events above. *)
Record Extra := mkExtra {
  activeToolArgs : gmap string TEM.Json;
  abortTimestamps : gmap string Z;
  extra_events : list ExtraEvent
}.

Definition St := (Service * Extra)%type.

(** Errors: those thrown by the manager, and [sessionManager.getSession] on
    an unknown id. *)
Inductive Err :=
| ManagerError (message : string)
| SessionNotFoundError (sessionId : string).

Inductive Res (A : Type) :=
| ROk (a : A)
| RErr (e : Err).
Arguments ROk {A} a.
Arguments RErr {A} e.

Definition SM (A : Type) := St -> Res A * St.

Definition sret {A} (a : A) : SM A := fun st => (ROk a, st).
Definition sbind {A B} (m : SM A) (k : A -> SM B) : SM B :=
  fun st => match m st with
            | (ROk a, st') => k a st'
            | (RErr e, st') => (RErr e, st')
            end.

Notation "x <- m ;; k" := (sbind m (fun x => k)) (at level 100, m at next level, right associativity).
Notation "m ;;; k" := (sbind m (fun _ => k)) (at level 100, right associativity).

Definition get_svc : SM Service := fun st => (ROk (fst st), st).
Definition modify_svc (f : Service -> Service) : SM unit := fun st => (ROk tt, (f (fst st), snd st)).
Definition modify_extra (f : Extra -> Extra) : SM unit := fun st => (ROk tt, (fst st, f (snd st))).

(** A call of the tool execution manager. *)
Definition mgr {A} (m : TEM.M A) : SM A :=
  fun st => let '(r, m') := m (manager (fst st)) in
            (match r with Ok a => ROk a | Throw msg => RErr (ManagerError msg) end,
             (set_manager m' (fst st), snd st)).

Definition set_activeTools f (s : Service) : Service :=
  mkService (sessions s) (activeProcessingSessionIds s) (f (activeTools s))
    (permissionRequests s) (manager s) (svc_events s) (resolutions s).

Definition set_permissionRequests f (s : Service) : Service :=
  mkService (sessions s) (activeProcessingSessionIds s) (activeTools s)
    (f (permissionRequests s)) (manager s) (svc_events s) (resolutions s).

Definition set_activeToolArgs f (x : Extra) : Extra :=
  mkExtra (f (activeToolArgs x)) (abortTimestamps x) (extra_events x).

Definition set_abortTimestamps f (x : Extra) : Extra :=
  mkExtra (activeToolArgs x) (f (abortTimestamps x)) (extra_events x).

Definition emit_extra (ev : ExtraEvent) (x : Extra) : Extra :=
  mkExtra (activeToolArgs x) (abortTimestamps x) (extra_events x ++ [ev]).

(** The key [`${sessionId}:${id}`] of [activeToolArgs]. *)
Definition args_key (sessionId id : string) : string := sessionId +s ":" +s id.

(** [this.getActiveTools(sessionId)] *)
Definition getActiveTools (sessionId : string) (s : Service) : list ActiveTool :=
  default [] (activeTools s !! sessionId).

(** [activeTools.find(t => t.toolId === toolId)?.executionId] *)
Definition find_executionId (sessionId toolId : string) (s : Service) : option string :=
  match list_find (fun t => at_toolId t = toolId) (getActiveTools sessionId s) with
  | Some (_, t) => Some (at_executionId t)
  | None => None
  end.

(** [activeTools.get(sessionId)?.push(tool)], the list created if missing. *)
Definition push_active (sessionId : string) (t : ActiveTool) (s : Service) : Service :=
  set_activeTools (fun m => <[sessionId := default [] (m !! sessionId) ++ [t]]> m) s.

(** The update [{ summary }]. *)
Definition summary_update (summary : string) : TEM.ExecUpdate :=
  TEM.mkUpdate None None None None None (Some summary) None.

Section Handlers.

(** [this.agent?.toolRegistry.getTool(toolId)?.name] *)
Variable toolNameOf : string -> option string.
(** [this.summarizeToolParameters], which reads the structure of the
    arguments, kept abstract here. *)
Variable summarizeToolParameters : string -> TEM.Json -> string.

(** [tool?.name || toolId] *)
Definition toolName (toolId : string) : string :=
  match toolNameOf toolId with
  | Some name => if String.eqb name EmptyString then toolId else name
  | None => toolId
  end.

(** [handleToolExecutionStart] *)
Definition handleToolExecutionStart (toolId : string) (args : TEM.Json) (sessionId : string)
  : SM unit :=
  execution <- mgr (TEM.createExecution sessionId toolId (toolName toolId) args) ;;
  let executionId := TEM.exec_id execution in
  let paramSummary := summarizeToolParameters toolId args in
  mgr (TEM.updateExecution executionId (summary_update paramSummary)) ;;;
  mgr (TEM.startExecution executionId) ;;;
  modify_svc (push_active sessionId (mkActiveTool toolId executionId)) ;;;
  modify_extra (set_activeToolArgs (fun m =>
    <[args_key sessionId executionId := args]> (<[args_key sessionId toolId := args]> m))).

(** The shared tail of [handleToolExecutionComplete] and
    [handleToolExecutionError] once the execution is finished: all entries
    with this [toolId] leave [activeTools], and both argument keys go. *)
Definition untrack (sessionId toolId executionId : string) (activeTools : list ActiveTool) : SM unit :=
  modify_svc (set_activeTools (insert sessionId (filter (fun t => at_toolId t <> toolId) activeTools))) ;;;
  modify_extra (set_activeToolArgs (fun m =>
    delete (args_key sessionId executionId) (delete (args_key sessionId toolId) m))).

(** [handleToolExecutionComplete]; the preview made by
    [generateToolExecutionPreview] lives in the preview manager and is not
    modelled. *)
Definition handleToolExecutionComplete (toolId : string) (args result : TEM.Json)
    (executionTime : Z) (sessionId : string) : SM unit :=
  s <- get_svc ;;
  let activeTools := getActiveTools sessionId s in
  let fallback := modify_extra (emit_extra
                    (TOOL_EXECUTION_COMPLETED sessionId toolId result executionTime)) in
  match find_executionId sessionId toolId s with
  | Some executionId =>
    if String.eqb executionId EmptyString then fallback
    else
      mgr (TEM.completeExecution executionId result executionTime) ;;;
      untrack sessionId toolId executionId activeTools
  | None => fallback
  end.

(** [handleToolExecutionError] *)
Definition handleToolExecutionError (toolId : string) (args : TEM.Json) (error : TEM.ExecError)
    (sessionId : string) : SM unit :=
  s <- get_svc ;;
  let activeTools := getActiveTools sessionId s in
  let fallback := modify_extra (emit_extra (TOOL_EXECUTION_ERROR sessionId toolId error)) in
  match find_executionId sessionId toolId s with
  | Some executionId =>
    if String.eqb executionId EmptyString then fallback
    else
      mgr (TEM.failExecution executionId error) ;;;
      untrack sessionId toolId executionId activeTools
  | None => fallback
  end.

(** The answer of [permissionUIHandler.requestPermission]: a promise
    resolved at once, or one left pending on the resolver stored under the
    permission id. *)
Inductive PermissionAnswer :=
| Approved
| Pending (permissionId : string).

(** [this.config.permissionMode] and [this.config.allowedTools]. *)
Variable permissionMode : string.
Variable allowedTools : list string.

(** The [permissionUIHandler.requestPermission] closure that
    [processQuery] gives the agent of session [sessionId]; the preview of
    [generatePermissionPreview] is not modelled. *)
Definition requestPermissionHandler (sessionId toolId : string) (args : TEM.Json)
  : SM PermissionAnswer :=
  if String.eqb permissionMode "auto" && existsb (String.eqb toolId) allowedTools
  then sret Approved
  else
    s <- get_svc ;;
    let create :=
      execution <- mgr (TEM.createExecution sessionId toolId (toolName toolId) args) ;;
      let executionId := TEM.exec_id execution in
      let paramSummary := summarizeToolParameters toolId args in
      mgr (TEM.updateExecution executionId (summary_update paramSummary)) ;;;
      modify_svc (push_active sessionId (mkActiveTool toolId executionId)) ;;;
      sret executionId in
    executionId <- match find_executionId sessionId toolId s with
                   | Some eid => if String.eqb eid EmptyString then create else sret eid
                   | None => create
                   end ;;
    permission <- mgr (TEM.requestPermission executionId args) ;;
    modify_svc (set_permissionRequests
                  (insert (TEM.perm_id permission) (mkPR sessionId toolId args))) ;;;
    sret (Pending (TEM.perm_id permission)).

End Handlers.

(** One pass of the loop over the active tools in [abortOperation]. *)
Definition abort_tool (sessionId : string) (abortTimestamp : Z) (tool : ActiveTool) : SM unit :=
  if String.eqb (at_executionId tool) EmptyString then
    modify_extra (emit_extra (TOOL_EXECUTION_ABORTED sessionId (at_toolId tool) None abortTimestamp))
  else
    fun st => match mgr (TEM.abortExecution (at_executionId tool)) st with
              | (ROk _, st') => (ROk tt, st')
              | (RErr _, st') =>
                modify_extra (emit_extra (TOOL_EXECUTION_ABORTED sessionId (at_toolId tool)
                                            (Some (at_executionId tool)) abortTimestamp)) st'
              end.

Fixpoint abort_tools (sessionId : string) (abortTimestamp : Z) (tools : list ActiveTool)
  : SM unit :=
  match tools with
  | [] => sret tt
  | tool :: rest => abort_tool sessionId abortTimestamp tool ;;; abort_tools sessionId abortTimestamp rest
  end.

(** [abortOperation]; [abortTimestamp] is [Date.now()]. *)
Definition abortOperation (sessionId : string) (abortTimestamp : Z) : SM bool :=
  s <- get_svc ;;
  match sessions s !! sessionId with
  | None => fun st => (RErr (SessionNotFoundError sessionId), st)
  | Some session =>
    if negb (busy session sessionId s) then sret false
    else
      modify_extra (set_abortTimestamps (insert sessionId abortTimestamp)) ;;;
      let activeTools := getActiveTools sessionId s in
      modify_svc (setProcessing sessionId false) ;;;
      modify_svc (set_active (filter (fun x => x <> sessionId))) ;;;
      modify_extra (emit_extra (PROCESSING_ABORTED sessionId abortTimestamp)) ;;;
      abort_tools sessionId abortTimestamp activeTools ;;;
      sret true
  end.

End AgentServiceOps.

(** * [AgentService.processQuery] with the agent run it drives *)
Module AgentServiceRun.
Import Service AgentServiceOps.

(** What [this.agent.processQuery(query, session.state)] does, as far as the
    service sees it. The agent ([createAgent] with its tool registry and
    permission manager, not part of src/) ends with a [ProcessQueryResult]
    (its own errors are caught into [{ error }]); before that it may fire
    the callbacks registered by [processQuery] ([onToolExecutionStart],
    [onToolExecutionComplete], [onToolExecutionError]) and call
    [permissionUIHandler.requestPermission], awaiting its answer, in any
    order. Each continuation gets what the call did: it returned (with the
    permission answer), or it threw, the error then reaching the agent. *)
Inductive AgentRun :=
| AgentDone (result : Runner.ProcessQueryResult)
| AgentToolStart (toolId : string) (args : TEM.Json) (k : Res unit -> AgentRun)
| AgentToolComplete (toolId : string) (args result : TEM.Json) (executionTime : Z)
    (k : Res unit -> AgentRun)
| AgentToolError (toolId : string) (args : TEM.Json) (error : TEM.ExecError)
    (k : Res unit -> AgentRun)
| AgentAskPermission (toolId : string) (args : TEM.Json) (k : Res bool -> AgentRun).

(** The agent run settles with its result, or stays suspended on a
    permission promise that is never resolved. *)
Inductive RunOutcome :=
| RunDone (result : Runner.ProcessQueryResult)
| RunWaiting (permissionId : string).

(** The outcome of [processQuery]: its return value, the error it throws,
    or a promise still pending on an unanswered permission request. *)
Inductive QueryResult :=
| QOk (response : string) (toolResults : list Runner.ToolResultEntry)
| QThrow (err : ServiceError)
| QWaiting (permissionId : string).

Section Run.

(** As in [AgentServiceOps]: [getTool(toolId)?.name], [summarizeToolParameters],
    [config.permissionMode] and [config.allowedTools]. *)
Variable toolNameOf : string -> option string.
Variable summarizeToolParameters : string -> TEM.Json -> string.
Variable permissionMode : string.
Variable allowedTools : list string.
(** The answer given to a pending permission request through
    [AgentService.resolvePermission] (the [/permissions/resolve] route), if
    any; the run waits for it, and nothing else happens in between. *)
Variable reply : string -> option bool.
(** Whether setting up the agent throws, and with which message. *)
Variable setup : option string.
(** The agent run for a query and the session's state. *)
Variable agent : string -> Runner.SessionState -> AgentRun.

(** The agent run of session [sessionId], each callback handled by the
    service's handler. A pending permission answered [g] goes through
    [resolvePermission], whose stored [resolver] resumes the agent with [g]. *)
Fixpoint run_agent (sessionId : string) (a : AgentRun) (st : St) : RunOutcome * St :=
  match a with
  | AgentDone r => (RunDone r, st)
  | AgentToolStart toolId args k =>
    let '(r, st') := handleToolExecutionStart toolNameOf summarizeToolParameters
                       toolId args sessionId st in
    run_agent sessionId (k r) st'
  | AgentToolComplete toolId args result executionTime k =>
    let '(r, st') := handleToolExecutionComplete toolId args result executionTime sessionId st in
    run_agent sessionId (k r) st'
  | AgentToolError toolId args error k =>
    let '(r, st') := handleToolExecutionError toolId args error sessionId st in
    run_agent sessionId (k r) st'
  | AgentAskPermission toolId args k =>
    match requestPermissionHandler toolNameOf summarizeToolParameters permissionMode
            allowedTools sessionId toolId args st with
    | (ROk Approved, st') => run_agent sessionId (k (ROk true)) st'
    | (ROk (Pending permissionId), st') =>
      match reply permissionId with
      | None => (RunWaiting permissionId, st')
      | Some granted =>
        run_agent sessionId (k (ROk granted))
          (snd (resolvePermission permissionId granted (fst st')), snd st')
      end
    | (RErr e, st') => run_agent sessionId (k (RErr e)) st'
    end
  end.

(** The agent changed [session.state] in place: the stored session holds
    the state it returned. *)
Definition set_state (sessionId : string) (ss : Runner.SessionState) (s : Service) : Service :=
  set_sessions (fun m => match m !! sessionId with
                         | Some se => <[sessionId := mkSession (isProcessing se) ss]> m
                         | None => m
                         end) s.

(** [this.activeProcessingSessionIds.delete(sessionId)] *)
Definition release (sessionId : string) (s : Service) : Service :=
  set_active (filter (fun x => x <> sessionId)) s.

(** [AgentService.processQuery]. [sessionManager.getSession] (not part of
    src/) throws on an unknown id. The execution adapter type, fast edit
    mode and [saveToolState] (which catches its own errors) touch nothing
    modelled here. *)
Definition processQuery (sessionId query : string) (st : St) : QueryResult * St :=
  let s := fst st in
  match sessions s !! sessionId with
  | None => (QThrow (SessionNotFound sessionId), st)
  | Some session =>
    if busy session sessionId s then (QThrow AgentBusyError, st)
    else
      let s1 := emit (PROCESSING_STARTED sessionId)
                  (setProcessing sessionId true (set_active (set_add sessionId) s)) in
      match setup with
      | Some e =>
        (* outer catch *)
        (QThrow (AgentSetupError e),
         (release sessionId (emit (PROCESSING_ERROR sessionId e) (setProcessing sessionId false s1)),
          snd st))
      | None =>
        match run_agent sessionId (agent query (state session)) (s1, snd st) with
        | (RunWaiting permissionId, st2) => (QWaiting permissionId, st2)
        | (RunDone r, (s2, x2)) =>
          let success tr response ss :=
            let s3 := emit (PROCESSING_COMPLETED sessionId response)
                        (set_sessions (insert sessionId (mkSession false ss)) s2) in
            (* finally *)
            (QOk response tr, (release sessionId s3, x2)) in
          match r with
          | Runner.PQOk tr _ response ss _ => success tr response ss
          | Runner.PQError e ss _ =>
            (* [if (result.error)]: an empty message is falsy, and the result
               is then taken as a success with no [toolResults] and no
               [response] *)
            if String.eqb e EmptyString then success [] EmptyString ss
            else
              let msg := "Agent error: " +s e in
              (* inner catch, finally, outer catch *)
              let s3 := emit (PROCESSING_ERROR sessionId msg)
                          (setProcessing sessionId false (set_state sessionId ss s2)) in
              let s4 := release sessionId s3 in
              let s5 := release sessionId
                          (emit (PROCESSING_ERROR sessionId msg) (setProcessing sessionId false s4)) in
              (QThrow (ServerError msg), (s5, x2))
          end
        end
      end
  end.

End Run.

End AgentServiceRun.


(** * Properties of the tool execution manager *)
(** Properties of manager states and operations used in the statements below. *)
Module ManagerProps.
Import TEM.

(** An operation succeeds and leaves execution [eid] in status [st]. *)
Definition lands {A} (m : M A) (eid : string) (st : ToolExecutionStatus) (s : Manager) : Prop :=
  is_ok (fst (m s)) = true /\ status_of eid (snd (m s)) = Some st.

(** An operation throws [msg] and leaves the whole state as it was. *)
Definition rejects {A} (m : M A) (msg : string) (s : Manager) : Prop :=
  m s = (Throw msg, s).

(** Every [executionPermissions] link points at a known execution. *)
Definition link_ok (s : Manager) : Prop :=
  forall eid pid, executionPermissions s !! eid = Some pid -> is_Some (executions s !! eid).

(** Executions whose ids all came from the manager's name supply. *)
Definition ids_issued (s : Manager) : Prop :=
  forall k, is_Some (executions s !! k) -> exists n, (n < uuid_next s)%N /\ k = "uuid-" +s pretty n.

End ManagerProps.

(** Counting the external calls of a turn. *)
Module RunnerProps.
Import Runner.

Fixpoint count_calls (p : ExternalCall -> bool) (l : list ExternalCall) : nat :=
  match l with
  | [] => 0
  | c :: l' => (if p c then 1 else 0) + count_calls p l'
  end.

Definition is_get (c : ExternalCall) : bool :=
  match c with CallGetToolCall _ => true | _ => false end.

Definition loop_state (o : LoopOutcome) : LoopState :=
  match o with LDone st => st | LEscape _ st => st end.

End RunnerProps.

(** Concrete collaborators and states, used to run the definitions on
    sample turns. *)
Module Scenarios.
Import Runner.

Definition ss_empty : SessionState := mkSS [] false None None None None None.

Definition call_ls : ToolCall := mkToolCall "ls" "toolu_1" "{}".
Definition call_frobnicate : ToolCall := mkToolCall "frobnicate" "toolu_2" "{}".
Definition chat_ls : ToolCallChat := mkChat true (Some call_ls) None.
Definition chat_frobnicate : ToolCallChat := mkChat true (Some call_frobnicate) None.
Definition chat_final : ToolCallChat := mkChat false None (Some (mkResponse [Text "final"])).

(** A model that asks for [ls], then (after the [ls] run, external call 2)
    for the undeclared tool [frobnicate], then answers. *)
Definition model_ls_then_frobnicate (n : nat) (q : string) (ss : SessionState)
  : Exc ToolCallChat :=
  match n with
  | 0 => Ok chat_ls
  | 2 => Ok chat_frobnicate
  | _ => Ok chat_final
  end.

Definition model_frobnicate (n : nat) (q : string) (ss : SessionState) : Exc ToolCallChat :=
  Ok chat_frobnicate.

Definition model_ls (n : nat) (q : string) (ss : SessionState) : Exc ToolCallChat :=
  Ok chat_ls.

(** A catalog holding only [ls]. *)
Definition catalog_ls (id : string) : option string :=
  if String.eqb id "ls" then Some "LS" else None.

Definition exec_ok (n : nat) (id : string) (a : TEM.Json) (ss : SessionState)
  : Exc TEM.Json * SessionState := (Ok "[a,b]", ss).

Definition exec_denied (n : nat) (id : string) (a : TEM.Json) (ss : SessionState)
  : Exc TEM.Json * SessionState := (Throw "Permission denied", ss).

Definition exec_invalid (n : nat) (id : string) (a : TEM.Json) (ss : SessionState)
  : Exc TEM.Json * SessionState := (Throw "Invalid args: path required", ss).

Definition answer_best_effort (n : nat) (q : string) (ss : SessionState)
  : Exc (option ModelResponse) := Ok (Some (mkResponse [Text "best effort"])).

Definition no_trim (ss : SessionState) : SessionState := ss.

(** The start of a turn for the query [run it] on an empty history. *)
Definition turn_start : LoopState := init_state no_trim "run it" ss_empty.

(** A loop state one iteration into a turn, after a successful [ls]. *)
Definition turn_after_ls : LoopState :=
  mkLS 1 "next" [mkEntry "ls" "{}" "[a,b]" "toolu_1"] None ss_empty [].

(** A model that fails on the prompt [first question] and answers any other. *)
Definition model_fails_on_first (n : nat) (q : string) (ss : SessionState) : Exc ToolCallChat :=
  if String.eqb q "first question" then Throw "overloaded" else Ok chat_final.

(** An agent whose tools fire no callbacks and ask no permission: the turn
    of [Runner.processQuery] with [model], [catalog_ls] and [exec_ok]. *)
Definition plain_agent (model : nat -> string -> SessionState -> Exc ToolCallChat)
    (q : string) (ss : SessionState) : AgentServiceRun.AgentRun :=
  AgentServiceRun.AgentDone (processQuery model catalog_ls exec_ok answer_best_effort no_trim q ss).

(** A service with one session [s1] whose query is being processed. *)
Definition service_busy : Service.Service :=
  Service.mkService {[ "s1" := Service.mkSession true ss_empty ]} ["s1"] ∅ ∅
    TEM.empty_manager [] [].

End Scenarios.

(** * Definitions for the further properties *)
Module ExtraProps.
Import Runner.

(** Kinds of external calls in the log of a turn. *)
Definition is_execute (c : ExternalCall) : bool :=
  match c with CallExecute _ _ => true | _ => false end.
Definition is_generate (c : ExternalCall) : bool :=
  match c with CallGenerateResponse _ => true | _ => false end.

(** The [executeTool] call that produced a tool result entry. *)
Definition entry_call (e : ToolResultEntry) : ExternalCall :=
  CallExecute (tr_toolId e) (tr_toolUseId e).

(** The loop state an iteration ends in, whatever its outcome. *)
Definition iter_state (o : IterOutcome) : LoopState :=
  match o with IContinue st' | IBreak st' | IEscape _ st' => st' end.

(** A manager holding one execution [uuid-0] of [ls] in session [s1]. *)
Definition manager_one : TEM.Manager :=
  snd (TEM.createExecution "s1" "ls" "LS" "{}" TEM.empty_manager).

(** [manager_one] with a second execution [uuid-1] in session [s2]. *)
Definition manager_two : TEM.Manager :=
  snd (TEM.createExecution "s2" "cat" "CAT" "{}" manager_one).

(** A permission request [uuid-1] whose execution [uuid-0] is gone. *)
Definition manager_orphan_permission : TEM.Manager :=
  TEM.set_executions (fun _ => ∅) (snd (TEM.requestPermission "uuid-0" "{}" manager_one)).

(** A service with one idle session [s1]. *)
Definition service_idle : Service.Service :=
  Service.mkService {[ "s1" := Service.mkSession false Scenarios.ss_empty ]} [] ∅ ∅
    TEM.empty_manager [] [].

Definition extra_empty : AgentServiceOps.Extra := AgentServiceOps.mkExtra ∅ ∅ [].

Definition summarize_fixed (toolId : string) (args : TEM.Json) : string := toolId +s " " +s args.

(** Session [s1] of [service_idle] after the start of an [ls] run. *)
Definition st_ls_running : AgentServiceOps.St :=
  snd (AgentServiceOps.handleToolExecutionStart Scenarios.catalog_ls summarize_fixed "ls" "{}" "s1"
         (service_idle, extra_empty)).

(** The busy session of [Scenarios.service_busy] with an [ls] run started. *)
Definition st_busy_ls_running : AgentServiceOps.St :=
  snd (AgentServiceOps.handleToolExecutionStart Scenarios.catalog_ls summarize_fixed "ls" "{}" "s1"
         (Scenarios.service_busy, extra_empty)).

(** Service operations that leave the sessions and the active set alone. *)
Definition keeps_sessions {A} (m : AgentServiceOps.SM A) : Prop :=
  forall st, Service.sessions (fst (snd (m st))) = Service.sessions (fst st) /\
             Service.activeProcessingSessionIds (fst (snd (m st))) =
               Service.activeProcessingSessionIds (fst st).


End ExtraProps.

Module ManagerFacts.
Import TEM ManagerProps.

Lemma getExecutionOrThrow_found s eid e :
  executions s !! eid = Some e -> getExecutionOrThrow eid s = (Ok e, s).
Proof. intros H. unfold getExecutionOrThrow. by rewrite H. Qed.

Lemma updateExecution_found s eid e u :
  executions s !! eid = Some e ->
  is_ok (fst (updateExecution eid u s)) = true /\
  executions (snd (updateExecution eid u s)) = <[eid := spread e u]> (executions s).
Proof.
  intros H. unfold updateExecution, bind.
  rewrite (getExecutionOrThrow_found _ _ _ H). cbn. done.
Qed.

Lemma updateExecution_status s eid e u :
  executions s !! eid = Some e ->
  status_of eid (snd (updateExecution eid u s)) = Some (over (u_status u) (exec_status e)).
Proof.
  intros H. destruct (updateExecution_found s eid e u H) as [_ He].
  unfold status_of. rewrite He, lookup_insert_eq. done.
Qed.

Lemma updateStatus_lands s eid e st :
  executions s !! eid = Some e -> lands (updateStatus eid st) eid st s.
Proof.
  intros H. split.
  - apply (updateExecution_found s eid e _ H).
  - apply (updateExecution_status s eid e (status_update st) H).
Qed.

(** Running [updateExecution] inside a larger operation. *)
Lemma bind_updateExecution {B} s eid e u (k : ToolExecutionState -> M B) :
  executions s !! eid = Some e ->
  bind (updateExecution eid u) k s = k (spread e u) (snd (updateExecution eid u s)).
Proof.
  intros H. unfold bind at 1. unfold updateExecution, bind.
  rewrite (getExecutionOrThrow_found _ _ _ H). cbn. done.
Qed.

Lemma emitEvent_executions s ev : executions (snd (emitEvent ev s)) = executions s.
Proof. done. Qed.

Ltac run_manager H :=
  unfold requestPermission, resolvePermission, completeExecution, failExecution,
    abortExecution, startExecution, updateStatus, updateExecution, getExecutionOrThrow, bind,
    gets, now, emitEvent, modify, ret, uuidv4, set_executions, set_sessionExecutions,
    set_permissionRequests, set_sessionPermissions, set_executionPermissions;
  cbn; repeat (rewrite H; cbn).

Ltac status_done := unfold status_of; cbn; rewrite ?lookup_insert_eq; reflexivity.

(** Claim C1 (as amended): the manager has no terminal-state guard. On an
    execution that exists, whatever its status (terminal ones included),
    [startExecution], [completeExecution], [failExecution], [abortExecution]
    and [requestPermission] succeed and set the status they name, and
    [resolvePermission] on a request linked to it sets RUNNING (granted) or
    ERROR (denied). *)
Theorem manager_ops_ignore_terminal_status (s : Manager) (eid : string) (e : ToolExecutionState)
  (r : Json) (t : Z) (err : ExecError) (a : Json) :
  executions s !! eid = Some e ->
  lands (startExecution eid) eid RUNNING s /\
  lands (completeExecution eid r t) eid COMPLETED s /\
  lands (failExecution eid err) eid ERROR s /\
  lands (abortExecution eid) eid ABORTED s /\
  lands (requestPermission eid a) eid AWAITING_PERMISSION s /\
  (forall pid p, permissionRequests s !! pid = Some p -> perm_executionId p = eid ->
     lands (resolvePermission pid true) eid RUNNING s /\
     lands (resolvePermission pid false) eid ERROR s).
Proof.
  intros H.
  split; [|split; [|split; [|split; [|split]]]].
  - apply (updateStatus_lands s eid e RUNNING H).
  - split; run_manager H; first [done | status_done].
  - split; run_manager H; first [done | status_done].
  - split; run_manager H; first [done | status_done].
  - split; run_manager H; first [done | status_done].
  - intros pid p Hp <-.
    split; split; run_manager Hp; repeat (rewrite H; cbn); first [done | status_done].
Qed.

(** Claim C1: a COMPLETED execution is moved to ABORTED by [abortExecution],
    so a terminal status does accept a further transition. *)
Lemma completed_execution_is_aborted :
  let s1 := snd (createExecution "sess" "ls" "LS" "{}" empty_manager) in
  let s2 := snd (completeExecution "uuid-0" "ok" 3 s1) in
  status_of "uuid-0" s2 = Some COMPLETED /\ is_terminal COMPLETED = true /\
  status_of "uuid-0" (snd (abortExecution "uuid-0" s2)) = Some ABORTED.
Proof. vm_compute. repeat split. Qed.

Lemma manager_ops_ignore_terminal_status_witness :
  let s2 := snd (completeExecution "uuid-0" "ok" 3
                   (snd (createExecution "sess" "ls" "LS" "{}" empty_manager))) in
  status_of "uuid-0" s2 = Some COMPLETED /\
  lands (abortExecution "uuid-0") "uuid-0" ABORTED s2 /\
  lands (startExecution "uuid-0") "uuid-0" RUNNING s2.
Proof.
  intros s2.
  assert (H : exists e, executions s2 !! "uuid-0" = Some e) by (eexists; reflexivity).
  destruct H as [e H].
  destruct (manager_ops_ignore_terminal_status s2 "uuid-0" e "r" 0 (mkExecError "e" None) "{}" H)
    as [Hs [_ [_ [Ha _]]]].
  split; [reflexivity | split; [exact Ha | exact Hs]].
Defined.

Lemma link_ok_unknown s eid :
  link_ok s -> executions s !! eid = None -> executionPermissions s !! eid = None.
Proof.
  intros Hl Hx. destruct (executionPermissions s !! eid) as [pid|] eqn:E; [|done].
  destruct (Hl _ _ E) as [x Hx']. congruence.
Qed.

Lemma link_ok_empty : link_ok empty_manager.
Proof.
  intros eid pid H. unfold empty_manager in H. cbn [executionPermissions] in H.
  by rewrite lookup_empty in H.
Qed.

(** Claim C10: every operation addressed by an unknown id throws its "not
    found" error ([Tool execution not found: <id>], [Permission request not
    found: <id>], [No permission request found for execution: <id>]) and
    leaves the whole manager state (the execution and permission maps, their
    session indexes, the execution-permission links, events) unchanged. For
    [resolvePermissionByExecutionId], an unknown execution has no link in a
    state where every link points at a known execution ([link_ok]). *)
Theorem unknown_id_rejected_without_change (s : Manager) (eid pid : string) (u : ExecUpdate)
  (st : ToolExecutionStatus) (r : Json) (t : Z) (err : ExecError) (a : Json) (g : bool) :
  executions s !! eid = None ->
  permissionRequests s !! pid = None ->
  link_ok s ->
  rejects (updateExecution eid u) ("Tool execution not found: " +s eid) s /\
  rejects (updateStatus eid st) ("Tool execution not found: " +s eid) s /\
  rejects (startExecution eid) ("Tool execution not found: " +s eid) s /\
  rejects (completeExecution eid r t) ("Tool execution not found: " +s eid) s /\
  rejects (failExecution eid err) ("Tool execution not found: " +s eid) s /\
  rejects (abortExecution eid) ("Tool execution not found: " +s eid) s /\
  rejects (requestPermission eid a) ("Tool execution not found: " +s eid) s /\
  rejects (resolvePermission pid g) ("Permission request not found: " +s pid) s /\
  rejects (resolvePermissionByExecutionId eid g)
    ("No permission request found for execution: " +s eid) s.
Proof.
  intros Hx Hp Hl. unfold rejects.
  repeat split; try (run_manager Hx; done).
  - unfold resolvePermission, bind, gets. cbn. by rewrite Hp.
  - unfold resolvePermissionByExecutionId, bind, gets. cbn.
    by rewrite (link_ok_unknown s eid Hl Hx).
Qed.

Lemma unknown_id_rejected_without_change_witness :
  link_ok empty_manager /\
  rejects (completeExecution "missing" "r" 0) ("Tool execution not found: " +s "missing")
    empty_manager.
Proof.
  split; [apply link_ok_empty|].
  refine (proj1 (proj2 (proj2 (proj2
    (unknown_id_rejected_without_change empty_manager "missing" "p" no_update RUNNING
       "r" 0 (mkExecError "e" None) "{}" true eq_refl eq_refl link_ok_empty))))).
Defined.

(** Claim C8 (as amended): [createExecution] takes no correlation id and
    never fails. It names the execution with a fresh [uuidv4()] value, which
    is not the id of any execution created before, stores it as PENDING and
    returns it. *)
Theorem createExecution_assigns_fresh_uuid (s : Manager) (sid tid tn : string) (a : Json) :
  ids_issued s ->
  exists e, fst (createExecution sid tid tn a s) = Ok e /\
    exec_id e = "uuid-" +s pretty (uuid_next s) /\
    executions s !! exec_id e = None /\
    exec_status e = PENDING /\ exec_sessionId e = sid /\
    executions (snd (createExecution sid tid tn a s)) !! exec_id e = Some e.
Proof.
  intros Hi. eexists. split; [reflexivity|]. cbn.
  split; [reflexivity|]. split.
  - destruct (executions s !! _) eqn:E; [|done].
    destruct (Hi _ (mk_is_Some _ _ E)) as [n [Hn Heq]].
    simpl in Heq. injection Heq as Heq. apply pretty_N_inj in Heq. subst. lia.
  - repeat split. by rewrite lookup_insert_eq.
Qed.

Lemma createExecution_assigns_fresh_uuid_witness :
  ids_issued ExtraProps.manager_one /\
  is_Some (executions ExtraProps.manager_one !! "uuid-0") /\
  exists e, fst (createExecution "s1" "cat" "CAT" "{}" ExtraProps.manager_one) = Ok e /\
    exec_id e = "uuid-" +s pretty 1%N /\
    executions ExtraProps.manager_one !! exec_id e = None /\
    exec_status e = PENDING /\ exec_sessionId e = "s1" /\
    executions (snd (createExecution "s1" "cat" "CAT" "{}" ExtraProps.manager_one)) !! exec_id e
      = Some e.
Proof.
  assert (H : ids_issued ExtraProps.manager_one).
  { intros k [x Hk]. unfold ExtraProps.manager_one in Hk. cbn in Hk.
    apply lookup_insert_Some in Hk as [[<- _] | [_ Hk]].
    - exists 0%N. split; [cbn; lia | reflexivity].
    - by rewrite lookup_empty in Hk. }
  split; [exact H|]. split; [eexists; reflexivity|].
  exact (createExecution_assigns_fresh_uuid ExtraProps.manager_one "s1" "cat" "CAT" "{}" H).
Defined.

(** Claim C8: two [createExecution] calls for the same model tool call
    (correlation id [toolu_01]) both succeed, and neither execution id is
    that correlation id. *)
Lemma createExecution_ignores_correlation_id :
  let r1 := createExecution "sess" "bash" "Bash" "{}" empty_manager in
  let r2 := createExecution "sess" "bash" "Bash" "{}" (snd r1) in
  (exists e1 e2, fst r1 = Ok e1 /\ fst r2 = Ok e2 /\
     exec_id e1 <> "toolu_01" /\ exec_id e2 <> "toolu_01").
Proof.
  cbn. do 2 eexists. split; [reflexivity|]. split; [reflexivity|].
  split; cbn; discriminate.
Qed.

(** Claim C2: [ToolExecutionManager.resolvePermission] called again on an
    already resolved (denied) request succeeds, and moves the linked
    execution from ERROR to RUNNING. *)
Lemma manager_resolvePermission_repeats :
  let s1 := snd (createExecution "sess" "bash" "Bash" "{}" empty_manager) in
  let s2 := snd (requestPermission "uuid-0" "{}" s1) in
  let s3 := snd (resolvePermission "uuid-1" false s2) in
  (perm_resolvedTime <$> permissionRequests s3 !! "uuid-1") = Some (Some 0%Z) /\
  status_of "uuid-0" s3 = Some ERROR /\
  is_ok (fst (resolvePermission "uuid-1" true s3)) = true /\
  status_of "uuid-0" (snd (resolvePermission "uuid-1" true s3)) = Some RUNNING.
Proof. vm_compute. repeat split. Qed.

End ManagerFacts.

(** * Properties of the conversation loop *)
Module RunnerFacts.
Import Runner RunnerProps.

Lemma count_calls_app p l1 l2 :
  count_calls p (l1 ++ l2) = count_calls p l1 + count_calls p l2.
Proof. induction l1 as [|c l1 IH]; simpl; [done|]. rewrite IH. lia. Qed.

Section Oracles.
Variable getToolCall : nat -> string -> SessionState -> Exc ToolCallChat.
Variable getTool : string -> option string.
Variable execute : nat -> string -> TEM.Json -> SessionState -> Exc TEM.Json * SessionState.
Variable generateResponse : nat -> string -> SessionState -> Exc (option ModelResponse).
Variable mcs : SessionState -> SessionState.

Local Abbreviation body := (Runner.body getToolCall getTool execute).
Local Abbreviation iteration := (Runner.iteration getToolCall getTool execute generateResponse).
Local Abbreviation loop := (Runner.loop getToolCall getTool execute generateResponse).
Local Abbreviation post := (Runner.post generateResponse).
Local Abbreviation run_from := (Runner.run_from getToolCall getTool execute generateResponse).
Local Abbreviation processQuery :=
  (Runner.processQuery getToolCall getTool execute generateResponse mcs).

(** Each iteration asks the model exactly once and keeps the counter. *)
Lemma iteration_counts q st :
  let st' := match iteration q st with
             | IContinue st' | IBreak st' | IEscape _ st' => st'
             end in
  iterations st' = iterations st /\
  count_calls is_get (log st') = S (count_calls is_get (log st)).
Proof.
  unfold Runner.iteration, Runner.body.
  repeat case_match; simplify_eq/=; rewrite ?count_calls_app; simpl; lia.
Qed.

Lemma loop_counts fuel q st :
  iterations st <= maxIterations ->
  iterations (loop_state (loop fuel q st)) <= maxIterations /\
  count_calls is_get (log (loop_state (loop fuel q st))) + iterations st =
  count_calls is_get (log st) + iterations (loop_state (loop fuel q st)).
Proof.
  revert st. induction fuel as [|f IH]; intros st Hle; simpl; [lia|].
  destruct (Nat.ltb_spec (iterations st) maxIterations) as [Hlt|]; [|simpl; lia].
  pose proof (iteration_counts q (incr st)) as Hc.
  destruct (iteration q (incr st)) as [st'|st'|e st']; simpl in *;
    destruct Hc as [Hi Hg]; [|lia|lia].
  destruct (IH st') as [H1 H2]; [lia|]. split; [done|lia].
Qed.

Lemma post_counts q o :
  count_calls is_get (pq_log (post q o)) = count_calls is_get (log (loop_state o)) /\
  (forall tr it resp ss l, post q o = PQOk tr it resp ss l -> it = iterations (loop_state o)).
Proof.
  unfold Runner.post, complete.
  destruct o as [st|e st]; simpl; [|split; [done|discriminate]].
  repeat case_match; simplify_eq/=; rewrite ?count_calls_app; simpl;
    split; intros; simplify_eq/=; try lia; done.
Qed.

(** Claim C3: [processQuery] asks the model for a tool call at most 15 times
    ([maxIterations]), reports at most 15 iterations, and when the loop ends
    without a final answer, exactly one more model call, [generateResponse],
    is made, and nothing else. This holds for every behaviour of the model and
    tools; the run always terminates (the loop is bounded by construction). *)
Theorem processQuery_iteration_ceiling (q : string) (ss0 : SessionState) :
  count_calls is_get (pq_log (processQuery q ss0)) <= maxIterations /\
  (forall tr it resp ss l, processQuery q ss0 = PQOk tr it resp ss l -> it <= maxIterations) /\
  (forall st, loop maxIterations q (init_state mcs q ss0) = LDone st ->
     finalResponse st = None ->
     pq_log (processQuery q ss0) = log st ++ [CallGenerateResponse q]).
Proof.
  unfold Runner.processQuery, Runner.run_from. cbn [iterations init_state].
  change (maxIterations - 0) with maxIterations.
  destruct (loop_counts maxIterations q (init_state mcs q ss0)) as [H1 H2]; [simpl; lia|].
  destruct (post_counts q (loop maxIterations q (init_state mcs q ss0))) as [H3 H4].
  cbn [iterations log init_state count_calls] in H2. split; [|split].
  - rewrite H3. lia.
  - intros tr it resp ss l Hr. rewrite (H4 _ _ _ _ _ Hr). done.
  - intros st Hl Hf. rewrite Hl. unfold Runner.post. rewrite Hf.
    destruct (generateResponse _ _ _); done.
Qed.

(** One turn of the [while] loop, seen from [run_from]. *)
Lemma run_from_step q st :
  iterations st < maxIterations ->
  run_from q st =
  match iteration q (incr st) with
  | IContinue st' => run_from q st'
  | IBreak st' => post q (LDone st')
  | IEscape e st' => post q (LEscape e st')
  end.
Proof.
  intros Hlt. unfold Runner.run_from at 1.
  replace (maxIterations - iterations st) with (S (maxIterations - S (iterations st))) by lia.
  cbn [Runner.loop]. destruct (Nat.ltb_spec (iterations st) maxIterations); [|lia].
  pose proof (iteration_counts q (incr st)) as [Hi _].
  destruct (iteration q (incr st)) as [st'|st'|e st']; [|done|done].
  unfold Runner.run_from. simpl in Hi. by rewrite Hi.
Qed.

Lemma post_done_log q st :
  finalResponse st <> None ->
  exists it resp ss', post q (LDone st) = PQOk (toolResults st) it resp ss' (log st) /\
                      it = iterations st.
Proof.
  intros Hf. unfold Runner.post, complete.
  destruct (finalResponse st) as [r|]; [|done]. eauto.
Qed.

Lemma post_fallback_log q st :
  exists rest, pq_log (post q (LDone st)) = log st ++ rest /\
    (rest = [] \/ rest = [CallGenerateResponse q]).
Proof.
  unfold Runner.post, complete.
  destruct (finalResponse st); [exists []; simpl; rewrite app_nil_r; auto|].
  exists [CallGenerateResponse q]. split; [|auto].
  destruct (generateResponse _ _ _); done.
Qed.

(** Claim C4 (as amended): when the model picks a tool id that the registry
    does not know, the iteration throws [Tool <id> not found] before any tool
    is executed (so no tool execution, hence no execution state, exists for
    that request). With no successful tool call yet in the turn, the turn
    ends with that error. After at least one success, the shared [catch]
    instead asks [generateResponse] for a best-effort answer from the
    partial results. *)
Theorem unknown_tool_ends_iteration (q : string) (st : LoopState) (chat : ToolCallChat)
  (tc : ToolCall) :
  iterations st < maxIterations ->
  getToolCall (length (log st)) (currentQuery st) (sessionState st) = Ok chat ->
  toolChosen chat = true -> toolCall chat = Some tc -> getTool (toolId tc) = None ->
  (toolResults st = [] ->
     run_from q st = PQError ("Tool " +s toolId tc +s " not found") (sessionState st)
                       (log st ++ [CallGetToolCall (currentQuery st)])) /\
  (toolResults st <> [] ->
     (exists rest, pq_log (run_from q st) =
        log st ++ [CallGetToolCall (currentQuery st); CallGenerateResponse q] ++ rest /\
        (rest = [] \/ rest = [CallGenerateResponse q])) /\
     (forall r, generateResponse (S (length (log st))) q (sessionState st) = Ok (Some r) ->
        exists resp ss', run_from q st =
          PQOk (toolResults st) (S (iterations st)) resp ss'
            (log st ++ [CallGetToolCall (currentQuery st); CallGenerateResponse q]))).
Proof.
  intros Hlt Hg Hc Htc Ht. rewrite (run_from_step q st Hlt).
  unfold Runner.iteration, Runner.body, incr.
  cbn [log currentQuery sessionState toolResults iterations finalResponse].
  rewrite Hg, Hc, Htc. cbn [negb]. rewrite Ht.
  unfold with_log, with_final.
  cbn [log currentQuery sessionState toolResults iterations finalResponse].
  rewrite length_app. cbn [length]. rewrite Nat.add_1_r.
  split.
  - intros ->. done.
  - intros Hne. destruct (toolResults st) as [|x xs] eqn:E; [done|].
    split.
    + destruct (generateResponse _ _ _) as [fr|e2] eqn:Eg.
      * match goal with |- context [post q (LDone ?s)] =>
          destruct (post_fallback_log q s) as [rest [Hl Hr]] end.
        exists rest. rewrite Hl. cbn. rewrite <- !app_assoc. split; [done | exact Hr].
      * exists []. cbn. rewrite <- !app_assoc. split; [done | auto].
    + intros r Hr. rewrite Hr.
      match goal with |- context [post q (LDone ?s)] =>
        destruct (post_done_log q s) as [it [resp [ss' [Hp Hit]]]]; [done|] end.
      exists resp, ss'. rewrite Hp. cbn in Hit. subst it. cbn. by rewrite <- app_assoc.
Qed.

(** Claim C5: when a tool's [execute] throws an error that is not an
    argument-validation error, then with no successful tool call yet in the
    turn the failure propagates: [processQuery] returns that error. With at
    least one success ([toolResults] non-empty), the loop instead asks
    [generateResponse] for a best-effort answer and, when it gives one,
    returns it with the partial results. *)
Theorem tool_failure_propagates_or_falls_back (q : string) (st : LoopState)
  (chat : ToolCallChat) (tc : ToolCall) (name e : string) (ss2 : SessionState) :
  iterations st < maxIterations ->
  getToolCall (length (log st)) (currentQuery st) (sessionState st) = Ok chat ->
  toolChosen chat = true -> toolCall chat = Some tc -> getTool (toolId tc) = Some name ->
  execute (S (length (log st))) (toolId tc) (args tc) (record_call tc (sessionState st))
    = (Throw e, ss2) ->
  is_validation_error e = false ->
  let calls := [CallGetToolCall (currentQuery st); CallExecute (toolId tc) (toolUseId tc)] in
  (toolResults st = [] -> run_from q st = PQError e ss2 (log st ++ calls)) /\
  (toolResults st <> [] ->
     (exists rest, pq_log (run_from q st) = log st ++ calls ++ [CallGenerateResponse q] ++ rest /\
        (rest = [] \/ rest = [CallGenerateResponse q])) /\
     (forall r, generateResponse (S (S (length (log st)))) q ss2 = Ok (Some r) ->
        exists resp ss', run_from q st =
          PQOk (toolResults st) (S (iterations st)) resp ss'
            (log st ++ calls ++ [CallGenerateResponse q]))).
Proof.
  intros Hlt Hg Hc Htc Ht Hx Hv calls. subst calls.
  rewrite (run_from_step q st Hlt).
  unfold Runner.iteration, Runner.body, incr.
  cbn [log currentQuery sessionState toolResults iterations finalResponse].
  rewrite Hg, Hc, Htc. cbn [negb]. rewrite Ht.
  rewrite length_app. cbn [length]. rewrite Nat.add_1_r. rewrite Hx, Hv.
  unfold with_log, with_final.
  cbn [log currentQuery sessionState toolResults iterations finalResponse].
  rewrite !length_app. cbn [length]. replace (length (log st) + 1 + 1) with (S (S (length (log st)))) by lia.
  split.
  - intros ->. cbn. by rewrite <- app_assoc.
  - intros Hne. destruct (toolResults st) as [|x xs] eqn:E; [done|].
    split.
    + destruct (generateResponse _ _ _) as [fr|e2] eqn:Eg.
      * match goal with |- context [post q (LDone ?s)] =>
          destruct (post_fallback_log q s) as [rest [Hl Hr]] end.
        exists rest. rewrite Hl. cbn. rewrite <- !app_assoc. split; [done | exact Hr].
      * exists []. cbn. rewrite <- !app_assoc. split; [done | auto].
    + intros r Hr. rewrite Hr.
      match goal with |- context [post q (LDone ?s)] =>
        destruct (post_done_log q s) as [it [resp [ss' [Hp Hit]]]]; [done|] end.
      exists resp, ss'. rewrite Hp. cbn in Hit. subst it. cbn. by rewrite <- !app_assoc.
Qed.

(** Claim C6: when [execute] throws an argument-validation error (its
    message contains [Invalid args]), the loop records the error as
    [lastToolError], appends a user message whose single part is a
    [tool_result] keyed by the call's correlation id and carrying the
    corrective prompt, makes that prompt the next query, and goes on with the
    next iteration: the rest of the turn is the run from that state. *)
Theorem validation_error_reprompts (q : string) (st : LoopState)
  (chat : ToolCallChat) (tc : ToolCall) (name e : string) (ss2 : SessionState) :
  iterations st < maxIterations ->
  getToolCall (length (log st)) (currentQuery st) (sessionState st) = Ok chat ->
  toolChosen chat = true -> toolCall chat = Some tc -> getTool (toolId tc) = Some name ->
  execute (S (length (log st))) (toolId tc) (args tc) (record_call tc (sessionState st))
    = (Throw e, ss2) ->
  is_validation_error e = true ->
  exists st',
    run_from q st = run_from q st' /\
    currentQuery st' = fixPrompt name e q (args tc) /\
    lastToolError (sessionState st') = Some (mkToolError (toolId tc) (args tc) e) /\
    conversationHistory (sessionState st') =
      conversationHistory ss2 ++ [mkMsg user [ToolResult (toolUseId tc) (currentQuery st')]] /\
    iterations st' = S (iterations st) /\
    toolResults st' = toolResults st /\
    log st' = log st ++ [CallGetToolCall (currentQuery st); CallExecute (toolId tc) (toolUseId tc)].
Proof.
  intros Hlt Hg Hc Htc Ht Hx Hv.
  rewrite (run_from_step q st Hlt).
  unfold Runner.iteration, Runner.body, incr.
  cbn [log currentQuery sessionState toolResults iterations finalResponse].
  rewrite Hg, Hc, Htc. cbn [negb]. rewrite Ht.
  rewrite length_app. cbn [length]. rewrite Nat.add_1_r. rewrite Hx, Hv.
  eexists. split; [reflexivity|]. cbn. repeat split. by rewrite <- app_assoc.
Qed.

End Oracles.

Import Scenarios.

Lemma unknown_tool_ends_iteration_witness :
  run_from model_frobnicate catalog_ls exec_ok answer_best_effort "run it" turn_start =
    PQError ("Tool " +s "frobnicate" +s " not found") (sessionState turn_start)
      (log turn_start ++ [CallGetToolCall "run it"]).
Proof.
  refine (proj1 (unknown_tool_ends_iteration model_frobnicate catalog_ls exec_ok
     answer_best_effort "run it" turn_start chat_frobnicate call_frobnicate
     ltac:(vm_compute; lia) eq_refl eq_refl eq_refl eq_refl) eq_refl).
Defined.

(** Claim C4: with a model that first runs [ls] successfully and then asks
    for the undeclared tool [frobnicate], the turn does not fail: it ends with
    the best-effort answer and the one [ls] result. *)
Lemma unknown_tool_after_success_answers :
  catalog_ls "frobnicate" = None /\
  model_ls_then_frobnicate 2 "list files" ss_empty = Ok chat_frobnicate /\
  match Runner.processQuery model_ls_then_frobnicate catalog_ls exec_ok answer_best_effort
          no_trim "list files" ss_empty with
  | PQOk tr it resp _ _ => length tr = 1 /\ it = 2 /\ resp = "best effort"
  | PQError _ _ _ => False
  end.
Proof. vm_compute. repeat split. Qed.

Lemma tool_failure_propagates_or_falls_back_witness :
  run_from model_ls catalog_ls exec_denied answer_best_effort "run it" turn_start =
    PQError "Permission denied" (record_call call_ls (sessionState turn_start))
      (log turn_start ++ [CallGetToolCall "run it"; CallExecute "ls" "toolu_1"]) /\
  exists resp ss',
    run_from model_ls catalog_ls exec_denied answer_best_effort "run it" turn_after_ls =
      PQOk (toolResults turn_after_ls) 2 resp ss'
        [CallGetToolCall "next"; CallExecute "ls" "toolu_1"; CallGenerateResponse "run it"].
Proof.
  split.
  - refine (proj1 (tool_failure_propagates_or_falls_back model_ls catalog_ls exec_denied
      answer_best_effort "run it" turn_start chat_ls call_ls "LS" "Permission denied"
      (record_call call_ls (sessionState turn_start))
      ltac:(vm_compute; lia) eq_refl eq_refl eq_refl eq_refl eq_refl eq_refl) eq_refl).
  - refine (proj2 (proj2 (tool_failure_propagates_or_falls_back model_ls catalog_ls exec_denied
      answer_best_effort "run it" turn_after_ls chat_ls call_ls "LS" "Permission denied"
      (record_call call_ls (sessionState turn_after_ls))
      ltac:(vm_compute; lia) eq_refl eq_refl eq_refl eq_refl eq_refl eq_refl)
      ltac:(discriminate)) (mkResponse [Text "best effort"]) eq_refl).
Defined.

Lemma validation_error_reprompts_witness :
  exists st',
    run_from model_ls catalog_ls exec_invalid answer_best_effort "run it" turn_start =
      run_from model_ls catalog_ls exec_invalid answer_best_effort "run it" st' /\
    lastToolError (sessionState st') =
      Some (mkToolError "ls" "{}" "Invalid args: path required") /\
    iterations st' = 1.
Proof.
  destruct (validation_error_reprompts model_ls catalog_ls exec_invalid answer_best_effort
      "run it" turn_start chat_ls call_ls "LS" "Invalid args: path required"
      (record_call call_ls (sessionState turn_start))
      ltac:(vm_compute; lia) eq_refl eq_refl eq_refl eq_refl eq_refl eq_refl)
    as [st' [Hr [_ [He [_ [Hi _]]]]]].
  exists st'. split; [exact Hr | split; [exact He | exact Hi]].
Defined.

(** Claim C9, what the code does: after the optional trimming by
    [manageConversationSize] (only when [tokenUsage] is present), the query is
    appended as a user text message exactly when the history is empty or its
    last entry is not a user message; when the last entry is a user message,
    whatever its content, the history is left as it is and the query is not
    added. *)
Theorem query_appended_unless_last_is_user (mcs : SessionState -> SessionState)
  (q : string) (ss0 : SessionState) :
  let h1 := conversationHistory (if tokenUsage ss0 then mcs ss0 else ss0) in
  ((h1 = [] \/ exists m, last h1 = Some m /\ role m = assistant) ->
     conversationHistory (prepare mcs q ss0) = h1 ++ [mkMsg user [Text q]]) /\
  (forall m, last h1 = Some m -> role m = user ->
     conversationHistory (prepare mcs q ss0) = h1).
Proof.
  cbv zeta. unfold prepare, should_append.
  destruct (if tokenUsage ss0 then mcs ss0 else ss0) as [h tu a b c d e]; cbn.
  split.
  - intros [-> | [m [Hl Hr]]]; [done|].
    rewrite Hl, Hr. done.
  - intros m Hl Hr. rewrite Hl, Hr. done.
Qed.

(** A history whose last entry is an earlier, different user question does
    not get the new query appended, so the query is missing from the history
    although it is not its last entry. *)
Lemma query_not_appended_after_other_user_message :
  let ss0 := mkSS [mkMsg user [Text "earlier question"]] false None None None None None in
  conversationHistory (prepare (fun s => s) "new question" ss0) =
    [mkMsg user [Text "earlier question"]].
Proof. reflexivity. Qed.


End RunnerFacts.

Module ServiceFacts.
Import Service.

Lemma resolvePermission_clears pid g s :
  permissionRequests (snd (resolvePermission pid g s)) !! pid = None.
Proof.
  unfold resolvePermission.
  destruct (permissionRequests s !! pid) as [req|] eqn:E; [|exact E].
  repeat (case_match; cbn [snd permissionRequests emit set_manager]);
    apply lookup_delete_eq.
Qed.

(** Claim C2 (as amended): [AgentService.resolvePermission] resolves a
    permission id at most once. Whatever the first call does, afterwards the
    id is gone from the service's [permissionRequests], so any later call
    returns [false] and changes nothing. [ToolExecutionManager.resolvePermission]
    has no such guard: on a request whose execution exists it succeeds every
    time, keeps the request with [resolvedTime] and [granted] overwritten
    (the clock and the new decision), and re-applies the transition to the
    execution: [RUNNING] if granted, [ERROR] if denied. The request and its
    execution are still there afterwards, so every later call does the same. *)
Theorem resolvePermission_resolves_once (pid : string) (g g' : bool) (s : Service) :
  let s' := snd (resolvePermission pid g s) in
  permissionRequests s' !! pid = None /\
  resolvePermission pid g' s' = (false, s') /\
  (forall (m : TEM.Manager) (p : TEM.PermissionRequestState) (e : TEM.ToolExecutionState)
     (b : bool),
     TEM.permissionRequests m !! pid = Some p ->
     TEM.executions m !! TEM.perm_executionId p = Some e ->
     let p' := TEM.mkPerm (TEM.perm_id p) (TEM.perm_sessionId p) (TEM.perm_toolId p)
                 (TEM.perm_toolName p) (TEM.perm_args p) (TEM.perm_requestTime p)
                 (TEM.perm_executionId p) (Some (TEM.clock m)) (Some b) in
     fst (TEM.resolvePermission pid b m) = Ok p' /\
     TEM.permissionRequests (snd (TEM.resolvePermission pid b m)) !! pid = Some p' /\
     TEM.status_of (TEM.perm_executionId p) (snd (TEM.resolvePermission pid b m)) =
       Some (if b then TEM.RUNNING else TEM.ERROR)).
Proof.
  intros s'. pose proof (resolvePermission_clears pid g s) as Hc.
  change (permissionRequests s' !! pid = None) in Hc.
  split; [exact Hc|]. split.
  - unfold resolvePermission at 1. by rewrite Hc.
  - intros m p e b Hp He p'.
    destruct b; ManagerFacts.run_manager Hp; ManagerFacts.run_manager He;
      unfold TEM.status_of; cbn; rewrite ?lookup_insert_eq; cbn;
      (split; [reflexivity | split; [rewrite ?lookup_insert_eq; reflexivity|]]);
      rewrite ?lookup_insert_eq; reflexivity.
Qed.

(** Claim C7: a query for a session that is processing (its [isProcessing]
    flag is set or its id is in [activeProcessingSessionIds]) is rejected with
    [AgentBusyError] and the service state is returned unchanged: no session
    flag, active set or event (in particular no [PROCESSING_STARTED]) is
    touched, and the agent is never set up nor run (no callback fires, no
    permission is asked), so nothing is queued. *)
Theorem busy_session_rejected
  (toolNameOf : string -> option string) (summarize : string -> TEM.Json -> string)
  (permissionMode : string) (allowedTools : list string) (reply : string -> option bool)
  (setup : option string) (agent : string -> Runner.SessionState -> AgentServiceRun.AgentRun)
  (sid q : string) (st : AgentServiceOps.St) (se : Session) :
  sessions (fst st) !! sid = Some se ->
  isProcessing se = true \/ sid ∈ activeProcessingSessionIds (fst st) ->
  AgentServiceRun.processQuery toolNameOf summarize permissionMode allowedTools reply setup
    agent sid q st = (AgentServiceRun.QThrow AgentBusyError, st).
Proof.
  intros Hs Hb. unfold AgentServiceRun.processQuery. rewrite Hs. unfold busy.
  destruct Hb as [-> | Hin]; [done|].
  rewrite (bool_decide_eq_true_2 _ Hin), orb_true_r. done.
Qed.

Lemma busy_session_rejected_witness :
  AgentServiceRun.processQuery Scenarios.catalog_ls ExtraProps.summarize_fixed "interactive" []
    (fun _ => None) None (Scenarios.plain_agent Scenarios.model_ls)
    "s1" "list files" (Scenarios.service_busy, ExtraProps.extra_empty)
  = (AgentServiceRun.QThrow AgentBusyError, (Scenarios.service_busy, ExtraProps.extra_empty)).
Proof.
  exact (busy_session_rejected Scenarios.catalog_ls ExtraProps.summarize_fixed "interactive" []
           (fun _ => None) None (Scenarios.plain_agent Scenarios.model_ls) "s1" "list files"
           (Scenarios.service_busy, ExtraProps.extra_empty)
           (mkSession true Scenarios.ss_empty) eq_refl (or_introl eq_refl)).
Defined.

(** Claim C9: the query goes missing in a real sequence of calls. A first
    query fails at the model ([getToolCall] throws); the agent had already
    pushed it onto [session.state], which keeps it. The second query of the
    same session then finds a user message last, is not appended, and is
    answered while the history holds only the first question. *)
Lemma query_lost_after_failed_turn :
  let pq := AgentServiceRun.processQuery Scenarios.catalog_ls ExtraProps.summarize_fixed
              "interactive" [] (fun _ => None) None
              (Scenarios.plain_agent Scenarios.model_fails_on_first) in
  let r1 := pq "s1" "first question" (ExtraProps.service_idle, ExtraProps.extra_empty) in
  let r2 := pq "s1" "second question" (snd r1) in
  fst r1 = AgentServiceRun.QThrow (ServerError ("Agent error: " +s "overloaded")) /\
  fst r2 = AgentServiceRun.QOk "final" [] /\
  option_map (fun se => Runner.conversationHistory (state se)) (sessions (fst (snd r2)) !! "s1") =
    Some [Runner.mkMsg Runner.user [Runner.Text "first question"];
          Runner.mkMsg Runner.assistant [Runner.Text "final"]].
Proof. vm_compute. repeat split. Qed.

End ServiceFacts.

(** * Further properties of the tool execution manager *)
Module ManagerExtraFacts.
Import TEM ManagerProps ExtraProps.

Lemma foldl_set_add {A} (f : A -> string) (pre : list string) (xs : list A) :
  NoDup (pre ++ map f xs) ->
  foldl (fun l x => set_add (f x) l) pre xs = pre ++ map f xs.
Proof.
  revert pre. induction xs as [|a xs IH]; intros pre Hnd; cbn; [by rewrite app_nil_r|].
  assert (Hn : f a ∉ pre).
  { intros Hin. apply NoDup_app in Hnd as (_ & Hdis & _). apply (Hdis (f a)); [done | by left]. }
  unfold set_add. rewrite bool_decide_eq_false_2 by done.
  rewrite IH; [by rewrite <- List.app_assoc|]. by rewrite <- List.app_assoc.
Qed.

Lemma foldl_index_add {A} sid (f : A -> string) (mp : gmap string (list string)) (xs : list A) :
  default [] (foldl (fun mp x => index_add sid (f x) mp) mp xs !! sid)
  = foldl (fun l x => set_add (f x) l) (default [] (mp !! sid)) xs.
Proof.
  revert mp. induction xs as [|a xs IH]; intros mp; cbn; [done|].
  rewrite IH. unfold index_add. by rewrite lookup_insert_eq.
Qed.

Lemma foldl_insert_absent {A} (f : A -> string) (mp : gmap string A) (xs : list A) k :
  k ∉ map f xs -> foldl (fun mp x => <[f x := x]> mp) mp xs !! k = mp !! k.
Proof.
  revert mp. induction xs as [|a xs IH]; intros mp Hk; cbn; [done|].
  rewrite IH by (intros ?; apply Hk; by right).
  apply lookup_insert_ne. intros Heq. apply Hk. subst k. cbn. by left.
Qed.

Lemma foldl_insert_lookup {A} (f : A -> string) (mp : gmap string A) (xs : list A) :
  NoDup (map f xs) ->
  omap (fun k => foldl (fun mp x => <[f x := x]> mp) mp xs !! k) (map f xs) = xs.
Proof.
  revert mp. induction xs as [|a xs IH]; intros mp Hnd; cbn; [done|].
  apply NoDup_cons in Hnd as [Hn Hnd].
  rewrite foldl_insert_absent, lookup_insert_eq by done. cbn. f_equal. apply IH, Hnd.
Qed.

Lemma foldl_load_execution sid es m :
  executions (foldl (load_execution sid) m es)
    = foldl (fun mp e => <[exec_id e := e]> mp) (executions m) es /\
  sessionExecutions (foldl (load_execution sid) m es)
    = foldl (fun mp e => index_add sid (exec_id e) mp) (sessionExecutions m) es /\
  permissionRequests (foldl (load_execution sid) m es) = permissionRequests m /\
  sessionPermissions (foldl (load_execution sid) m es) = sessionPermissions m.
Proof.
  revert m. induction es as [|e es IH]; intros m; cbn; [done|].
  destruct (IH (load_execution sid m e)) as (H1 & H2 & H3 & H4). by rewrite H1, H2, H3, H4.
Qed.

Lemma foldl_load_permission sid ps m :
  executions (foldl (load_permission sid) m ps) = executions m /\
  sessionExecutions (foldl (load_permission sid) m ps) = sessionExecutions m /\
  permissionRequests (foldl (load_permission sid) m ps)
    = foldl (fun mp p => <[perm_id p := p]> mp) (permissionRequests m) ps /\
  sessionPermissions (foldl (load_permission sid) m ps)
    = foldl (fun mp p => index_add sid (perm_id p) mp) (sessionPermissions m) ps.
Proof.
  revert m. induction ps as [|p ps IH]; intros m; cbn; [done|].
  destruct (IH (load_permission sid m p)) as (H1 & H2 & H3 & H4). rewrite H1, H2, H3, H4.
  unfold load_permission. by destruct (perm_resolvedTime p).
Qed.

Lemma foldl_clear_permission ids m :
  permissionRequests (foldl clear_permission m ids)
    = foldl (fun m id => delete id m) (permissionRequests m) ids /\
  executions (foldl clear_permission m ids) = executions m /\
  sessionExecutions (foldl clear_permission m ids) = sessionExecutions m /\
  sessionPermissions (foldl clear_permission m ids) = sessionPermissions m.
Proof.
  revert m. induction ids as [|i ids IH]; intros m; cbn; [done|].
  destruct (IH (clear_permission m i)) as (H1 & H2 & H3 & H4). rewrite H1, H2, H3, H4.
  unfold clear_permission. by destruct (permissionRequests m !! i).
Qed.

Lemma clearSessionData_indexes sid m :
  sessionExecutions (clearSessionData sid m) = delete sid (sessionExecutions m) /\
  sessionPermissions (clearSessionData sid m) = delete sid (sessionPermissions m).
Proof.
  unfold clearSessionData. cbn.
  destruct (foldl_clear_permission (default [] (sessionPermissions m !! sid))
    (set_sessionExecutions (delete sid)
       (set_executions (fun m0 => foldl (fun m1 id => delete id m1) m0
          (default [] (sessionExecutions m !! sid))) m))) as (_ & _ & H1 & H2).
  cbn in *. by rewrite H1, H2.
Qed.

Lemma omap_ext_in {A B} (f g : A -> option B) (l : list A) :
  (forall x, x ∈ l -> f x = g x) -> omap f l = omap g l.
Proof.
  induction l as [|x l IH]; intros H; cbn; [done|].
  rewrite (H x) by (by left). rewrite IH; [done|]. intros y Hy. apply H. by right.
Qed.

Lemma foldl_delete_absent {A} (m : gmap string A) (ids : list string) k :
  k ∉ ids -> foldl (fun m id => delete id m) m ids !! k = m !! k.
Proof.
  revert m. induction ids as [|i ids IH]; intros m Hk; cbn; [done|].
  rewrite IH by (intros ?; apply Hk; by right).
  apply lookup_delete_ne. intros ->. apply Hk. by left.
Qed.

Lemma set_add_elem x l : x ∈ set_add x l.
Proof.
  unfold set_add. case_bool_decide; [done|]. apply elem_of_app. right. by left.
Qed.

Lemma uuid_nonempty (n : N) : ("uuid-" +s pretty n =? EmptyString) = false.
Proof. done. Qed.

(** The finishing operations on an execution that exists, step by step. *)
Lemma completeExecution_run (m : Manager) eid e result t :
  executions m !! eid = Some e ->
  let ec := spread e (mkUpdate (Some COMPLETED) (Some result) None
              (Some (clock m)) (Some t) None None) in
  completeExecution eid result t m =
    (Ok ec, mkManager (<[eid := ec]> (executions m)) (sessionExecutions m)
        (permissionRequests m) (sessionPermissions m) (executionPermissions m)
        (events m ++ [EvUpdated ec; EvCompleted ec]) (clock m) (uuid_next m)).
Proof.
  intros He. cbn. ManagerFacts.run_manager He. rewrite ?lookup_insert_eq; cbn.
  by rewrite <- List.app_assoc.
Qed.

Lemma failExecution_run (m : Manager) eid e error :
  executions m !! eid = Some e ->
  let ef := spread e (mkUpdate (Some ERROR) None (Some error)
              (Some (clock m)) (Some (clock m - exec_startTime e)%Z) None None) in
  failExecution eid error m =
    (Ok ef, mkManager (<[eid := ef]> (executions m)) (sessionExecutions m)
        (permissionRequests m) (sessionPermissions m) (executionPermissions m)
        (events m ++ [EvUpdated ef; EvError ef]) (clock m) (uuid_next m)).
Proof.
  intros He. cbn. ManagerFacts.run_manager He. rewrite ?lookup_insert_eq; cbn.
  by rewrite <- List.app_assoc.
Qed.

Lemma abortExecution_run (m : Manager) eid e :
  executions m !! eid = Some e ->
  let ea := spread e (mkUpdate (Some ABORTED) None None
              (Some (clock m)) (Some (clock m - exec_startTime e)%Z) None None) in
  abortExecution eid m =
    (Ok ea, mkManager (<[eid := ea]> (executions m)) (sessionExecutions m)
        (permissionRequests m) (sessionPermissions m) (executionPermissions m)
        (events m ++ [EvUpdated ea; EvAborted ea]) (clock m) (uuid_next m)).
Proof.
  intros He. cbn. ManagerFacts.run_manager He. rewrite ?lookup_insert_eq; cbn.
  by rewrite <- List.app_assoc.
Qed.

Lemma abortExecution_missing (m : Manager) eid :
  executions m !! eid = None ->
  abortExecution eid m = (Throw ("Tool execution not found: " +s eid), m).
Proof.
  intros He. unfold abortExecution, bind, getExecutionOrThrow. by rewrite He.
Qed.

Lemma resolvePermission_run (m : Manager) pid p e granted :
  permissionRequests m !! pid = Some p ->
  executions m !! perm_executionId p = Some e ->
  (exists q, fst (resolvePermission pid granted m) = Ok q) /\
  status_of (perm_executionId p) (snd (resolvePermission pid granted m)) =
    Some (if granted then RUNNING else ERROR).
Proof.
  intros Hp He. ManagerFacts.run_manager Hp.
  destruct granted; ManagerFacts.run_manager He; unfold status_of; cbn;
    rewrite ?lookup_insert_eq; cbn; split; try done; by eexists.
Qed.

(** [saveSessionData] then [loadSessionData] of what it saved: the session's
    executions and permission requests, as listed by the getters, are
    restored into any manager state, whatever that state held before. *)
Theorem saveSessionData_loadSessionData_roundtrip (sid : string) (loaded : option SessionData)
    (s m : Manager)
    (He : NoDup (map exec_id (getExecutionsForSession sid s)))
    (Hp : NoDup (map perm_id (getPermissionRequestsForSession sid s))) :
  let m' := loadSessionData sid (Some (saveSessionData sid loaded s)) m in
  getExecutionsForSession sid m' = getExecutionsForSession sid s /\
  getPermissionRequestsForSession sid m' = getPermissionRequestsForSession sid s.
Proof.
  cbn. set (E := getExecutionsForSession sid s) in *.
  set (P := getPermissionRequestsForSession sid s) in *.
  destruct (clearSessionData_indexes sid m) as [Hie Hip].
  destruct (foldl_load_execution sid E (clearSessionData sid m)) as (Ee & Ese & Epr & Esp).
  destruct (foldl_load_permission sid P (foldl (load_execution sid) (clearSessionData sid m) E))
    as (Pe & Pse & Ppr & Psp).
  unfold getExecutionsForSession at 1, getPermissionRequestsForSession at 1.
  rewrite Pe, Pse, Ppr, Psp, Ee, Ese, Epr, Esp, Hie, Hip.
  rewrite !foldl_index_add, !lookup_delete_eq. cbn.
  rewrite !foldl_set_add by done. cbn.
  split; apply foldl_insert_lookup; done.
Qed.

(** [clearSessionData] empties the listings of its session and leaves those
    of another session alone, when the two sessions' index sets are
    disjoint. *)
Theorem clearSessionData_scoped (s : Manager) (sid sid' : string) (Hne : sid <> sid')
    (He : forall id, id ∈ default [] (sessionExecutions s !! sid) ->
                     id ∉ default [] (sessionExecutions s !! sid'))
    (Hp : forall id, id ∈ default [] (sessionPermissions s !! sid) ->
                     id ∉ default [] (sessionPermissions s !! sid')) :
  let s' := clearSessionData sid s in
  getExecutionsForSession sid s' = [] /\ getPermissionRequestsForSession sid s' = [] /\
  getExecutionsForSession sid' s' = getExecutionsForSession sid' s /\
  getPermissionRequestsForSession sid' s' = getPermissionRequestsForSession sid' s.
Proof.
  cbn. unfold clearSessionData, getExecutionsForSession, getPermissionRequestsForSession.
  set (s2 := set_sessionExecutions _ _).
  destruct (foldl_clear_permission (default [] (sessionPermissions s2 !! sid)) s2)
    as (H1 & H2 & H3 & H4).
  unfold set_sessionPermissions.
  cbn [executions permissionRequests sessionExecutions sessionPermissions].
  rewrite H1, H2, H3, H4. subst s2. cbn.
  rewrite !lookup_delete_eq, !lookup_delete_ne by done. cbn.
  split; [done|]. split; [done|]. split.
  - apply omap_ext_in. intros id Hin. apply foldl_delete_absent.
    intros Hin'. exact (He id Hin' Hin).
  - apply omap_ext_in. intros id Hin. apply foldl_delete_absent.
    intros Hin'. exact (Hp id Hin' Hin).
Qed.

(** [createExecution] returns a [PENDING] execution with the next
    identifier and appends it to the end of its session's listing, when that
    identifier is not already in the session's index. *)
Theorem createExecution_appends_to_session (s : Manager) (sid tid tn : string) (args : Json)
    (Hidx : "uuid-" +s pretty (uuid_next s) ∉ default [] (sessionExecutions s !! sid)) :
  let e := mkExec ("uuid-" +s pretty (uuid_next s)) sid tid tn PENDING args
             None None (clock s) None None None None in
  fst (createExecution sid tid tn args s) = Ok e /\
  getExecutionsForSession sid (snd (createExecution sid tid tn args s))
    = getExecutionsForSession sid s ++ [e].
Proof.
  cbn. split; [done|].
  unfold getExecutionsForSession. cbn. unfold index_add.
  rewrite lookup_insert_eq. cbn. unfold set_add. rewrite bool_decide_eq_false_2 by done.
  rewrite omap_app. cbn. rewrite lookup_insert_eq. f_equal.
  apply omap_ext_in. intros id Hin. apply lookup_insert_ne. intros Heq. apply Hidx. by rewrite Heq.
Qed.

(** On an execution that exists, [completeExecution], [failExecution] and
    [abortExecution] each replace it by its update (end time from the
    clock; execution time given for completion, measured from the start
    otherwise), change nothing else but the events, and emit the update
    event then their own. *)
Theorem finishing_ops_effects (s : Manager) (eid : string) (e : ToolExecutionState)
    (result : Json) (executionTime : Z) (error : ExecError)
    (He : executions s !! eid = Some e) :
  let c := clock s in
  let ec := spread e (mkUpdate (Some COMPLETED) (Some result) None (Some c) (Some executionTime) None None) in
  let ef := spread e (mkUpdate (Some ERROR) None (Some error) (Some c) (Some (c - exec_startTime e)%Z) None None) in
  let ea := spread e (mkUpdate (Some ABORTED) None None (Some c) (Some (c - exec_startTime e)%Z) None None) in
  let after e' ev := mkManager (<[eid := e']> (executions s)) (sessionExecutions s)
        (permissionRequests s) (sessionPermissions s) (executionPermissions s)
        (events s ++ [EvUpdated e'; ev e']) c (uuid_next s) in
  completeExecution eid result executionTime s = (Ok ec, after ec EvCompleted) /\
  failExecution eid error s = (Ok ef, after ef EvError) /\
  abortExecution eid s = (Ok ea, after ea EvAborted).
Proof.
  cbn. split; [|split]; ManagerFacts.run_manager He; rewrite ?lookup_insert_eq; cbn;
    by rewrite <- List.app_assoc.
Qed.

(** [requestPermission] on an existing execution creates a request with the
    next identifier, links it to the execution, puts the execution into
    [AWAITING_PERMISSION] and emits the update and request events. *)
Theorem requestPermission_links_new_request (s : Manager) (eid : string) (e : ToolExecutionState)
    (args : Json) (He : executions s !! eid = Some e) :
  let pid := "uuid-" +s pretty (uuid_next s) in
  let p := mkPerm pid (exec_sessionId e) (exec_toolId e) (exec_toolName e) args (clock s)
             eid None None in
  let e' := spread e (status_update AWAITING_PERMISSION) in
  let s' := snd (requestPermission eid args s) in
  fst (requestPermission eid args s) = Ok p /\
  permissionRequests s' = <[pid := p]> (permissionRequests s) /\
  getPermissionRequestForExecution eid s' = Some p /\
  status_of eid s' = Some AWAITING_PERMISSION /\
  events s' = events s ++ [EvUpdated e'; EvPermissionRequested (Some e') p].
Proof.
  cbn. ManagerFacts.run_manager He. rewrite ?lookup_insert_eq. cbn.
  unfold getPermissionRequestForExecution, status_of. cbn.
  rewrite (lookup_insert_eq (executionPermissions s)). cbn.
  rewrite !(lookup_insert_eq (permissionRequests s)).
  repeat split; [by rewrite (lookup_insert_eq (executions s)) | by rewrite <- List.app_assoc].
Qed.

(** A request made by [requestPermission] can be resolved through its
    execution: [resolvePermissionByExecutionId] returns it with the
    resolution time and decision, and the execution moves to [RUNNING] if
    granted, to [ERROR] if denied. *)
Theorem request_then_resolve_by_execution (s : Manager) (eid : string) (e : ToolExecutionState)
    (args : Json) (granted : bool) (He : executions s !! eid = Some e) :
  let pid := "uuid-" +s pretty (uuid_next s) in
  let s1 := snd (requestPermission eid args s) in
  let p := mkPerm pid (exec_sessionId e) (exec_toolId e) (exec_toolName e) args (clock s)
             eid (Some (clock s)) (Some granted) in
  let s2 := snd (resolvePermissionByExecutionId eid granted s1) in
  fst (resolvePermissionByExecutionId eid granted s1) = Ok p /\
  status_of eid s2 = Some (if granted then RUNNING else ERROR) /\
  getPermissionRequestForExecution eid s2 = Some p.
Proof.
  cbn. unfold resolvePermissionByExecutionId.
  ManagerFacts.run_manager He.
  repeat (rewrite ?uuid_nonempty; simplify_map_eq/=).
  destruct granted; ManagerFacts.run_manager He; repeat (rewrite ?uuid_nonempty; simplify_map_eq/=);
  unfold status_of, getPermissionRequestForExecution; simplify_map_eq/=;
  rewrite ?uuid_nonempty; simplify_map_eq/=; done.
Qed.

(** [resolvePermission] on a request whose execution is gone throws, but
    only after it has stored the request as resolved: the error leaves a
    half-applied update behind. *)
Theorem resolvePermission_missing_execution (s : Manager) (pid : string)
    (p : PermissionRequestState) (granted : bool)
    (Hp : permissionRequests s !! pid = Some p)
    (He : executions s !! perm_executionId p = None) :
  let p' := mkPerm (perm_id p) (perm_sessionId p) (perm_toolId p) (perm_toolName p)
              (perm_args p) (perm_requestTime p) (perm_executionId p)
              (Some (clock s)) (Some granted) in
  resolvePermission pid granted s =
    (Throw ("Tool execution not found: " +s perm_executionId p),
     set_permissionRequests (insert pid p') s).
Proof.
  cbn. ManagerFacts.run_manager Hp. destruct granted; ManagerFacts.run_manager He; reflexivity.
Qed.

End ManagerExtraFacts.

Module ManagerExtraWitnesses.
Import TEM ManagerProps ExtraProps ManagerExtraFacts.

Lemma saveSessionData_loadSessionData_roundtrip_witness :
  let m' := loadSessionData "s1" (Some (saveSessionData "s1" None manager_two)) empty_manager in
  getExecutionsForSession "s1" m' = getExecutionsForSession "s1" manager_two /\
  getPermissionRequestsForSession "s1" m' = getPermissionRequestsForSession "s1" manager_two.
Proof.
  apply (saveSessionData_loadSessionData_roundtrip "s1" None manager_two empty_manager).
  - apply (bool_decide_unpack _). vm_compute. reflexivity.
  - apply (bool_decide_unpack _). vm_compute. reflexivity.
Defined.

Lemma clearSessionData_scoped_witness :
  let s' := clearSessionData "s1" manager_two in
  getExecutionsForSession "s1" s' = [] /\ getPermissionRequestsForSession "s1" s' = [] /\
  getExecutionsForSession "s2" s' = getExecutionsForSession "s2" manager_two /\
  getPermissionRequestsForSession "s2" s' = getPermissionRequestsForSession "s2" manager_two.
Proof.
  apply (clearSessionData_scoped manager_two "s1" "s2").
  - done.
  - intros id. change (default [] (sessionExecutions manager_two !! "s1")) with ["uuid-0"].
    change (default [] (sessionExecutions manager_two !! "s2")) with ["uuid-1"].
    set_solver.
  - intros id. change (default [] (sessionPermissions manager_two !! "s1")) with (@nil string).
    set_solver.
Defined.

Lemma createExecution_appends_to_session_witness :
  let e := mkExec "uuid-1" "s1" "cat" "CAT" PENDING "{}" None None (clock manager_one)
             None None None None in
  fst (createExecution "s1" "cat" "CAT" "{}" manager_one) = Ok e /\
  getExecutionsForSession "s1" (snd (createExecution "s1" "cat" "CAT" "{}" manager_one))
    = getExecutionsForSession "s1" manager_one ++ [e].
Proof.
  apply (createExecution_appends_to_session manager_one "s1" "cat" "CAT" "{}").
  apply (bool_decide_unpack _). vm_compute. reflexivity.
Defined.

Lemma finishing_ops_effects_witness :
  exists e, executions manager_one !! "uuid-0" = Some e /\
  let c := clock manager_one in
  let ec := spread e (mkUpdate (Some COMPLETED) (Some "ok") None (Some c) (Some 5%Z) None None) in
  let ef := spread e (mkUpdate (Some ERROR) None (Some (mkExecError "boom" None)) (Some c)
              (Some (c - exec_startTime e)%Z) None None) in
  let ea := spread e (mkUpdate (Some ABORTED) None None (Some c) (Some (c - exec_startTime e)%Z) None None) in
  let after e' ev := mkManager (<[ "uuid-0" := e']> (executions manager_one))
        (sessionExecutions manager_one) (permissionRequests manager_one)
        (sessionPermissions manager_one) (executionPermissions manager_one)
        (events manager_one ++ [EvUpdated e'; ev e']) c (uuid_next manager_one) in
  completeExecution "uuid-0" "ok" 5 manager_one = (Ok ec, after ec EvCompleted) /\
  failExecution "uuid-0" (mkExecError "boom" None) manager_one = (Ok ef, after ef EvError) /\
  abortExecution "uuid-0" manager_one = (Ok ea, after ea EvAborted).
Proof.
  eexists. split; [reflexivity|].
  apply (finishing_ops_effects manager_one "uuid-0" _ "ok" 5 (mkExecError "boom" None)).
  reflexivity.
Defined.

Lemma requestPermission_links_new_request_witness :
  exists e, executions manager_one !! "uuid-0" = Some e /\
  let pid := "uuid-1" in
  let p := mkPerm pid (exec_sessionId e) (exec_toolId e) (exec_toolName e) "{}"
             (clock manager_one) "uuid-0" None None in
  let e' := spread e (status_update AWAITING_PERMISSION) in
  let s' := snd (requestPermission "uuid-0" "{}" manager_one) in
  fst (requestPermission "uuid-0" "{}" manager_one) = Ok p /\
  permissionRequests s' = <[pid := p]> (permissionRequests manager_one) /\
  getPermissionRequestForExecution "uuid-0" s' = Some p /\
  status_of "uuid-0" s' = Some AWAITING_PERMISSION /\
  events s' = events manager_one ++ [EvUpdated e'; EvPermissionRequested (Some e') p].
Proof.
  eexists. split; [reflexivity|].
  apply (requestPermission_links_new_request manager_one "uuid-0" _ "{}").
  reflexivity.
Defined.

Lemma request_then_resolve_by_execution_witness :
  exists e, executions manager_one !! "uuid-0" = Some e /\
  let s1 := snd (requestPermission "uuid-0" "{}" manager_one) in
  let p := mkPerm "uuid-1" (exec_sessionId e) (exec_toolId e) (exec_toolName e) "{}"
             (clock manager_one) "uuid-0" (Some (clock manager_one)) (Some false) in
  let s2 := snd (resolvePermissionByExecutionId "uuid-0" false s1) in
  fst (resolvePermissionByExecutionId "uuid-0" false s1) = Ok p /\
  status_of "uuid-0" s2 = Some ERROR /\
  getPermissionRequestForExecution "uuid-0" s2 = Some p.
Proof.
  eexists. split; [reflexivity|].
  apply (request_then_resolve_by_execution manager_one "uuid-0" _ "{}" false).
  reflexivity.
Defined.

Lemma resolvePermission_missing_execution_witness :
  exists p, permissionRequests manager_orphan_permission !! "uuid-1" = Some p /\
  executions manager_orphan_permission !! perm_executionId p = None /\
  let p' := mkPerm (perm_id p) (perm_sessionId p) (perm_toolId p) (perm_toolName p)
              (perm_args p) (perm_requestTime p) (perm_executionId p)
              (Some (clock manager_orphan_permission)) (Some true) in
  resolvePermission "uuid-1" true manager_orphan_permission =
    (Throw ("Tool execution not found: " +s perm_executionId p),
     set_permissionRequests (insert "uuid-1" p') manager_orphan_permission).
Proof.
  eexists. split; [reflexivity|]. split; [reflexivity|].
  apply (resolvePermission_missing_execution manager_orphan_permission "uuid-1" _ true);
    reflexivity.
Defined.

End ManagerExtraWitnesses.

(** * Further properties of [AgentRunner.processQuery] *)
Module RunnerExtraFacts.
Import Runner RunnerProps ExtraProps.

Section Oracles.
Variable getToolCall : nat -> string -> SessionState -> Exc ToolCallChat.
Variable getTool : string -> option string.
Variable execute : nat -> string -> TEM.Json -> SessionState -> Exc TEM.Json * SessionState.
Variable generateResponse : nat -> string -> SessionState -> Exc (option ModelResponse).
Variable mcs : SessionState -> SessionState.

Local Abbreviation iteration := (Runner.iteration getToolCall getTool execute generateResponse).
Local Abbreviation loop := (Runner.loop getToolCall getTool execute generateResponse).
Local Abbreviation post := (Runner.post generateResponse).
Local Abbreviation processQuery :=
  (Runner.processQuery getToolCall getTool execute generateResponse mcs).

Ltac run_iteration :=
  unfold Runner.iteration, Runner.body; repeat case_match; simplify_eq/=.

Lemma iteration_log q st :
  exists k, log (iter_state (iteration q st)) = log st ++ k /\
    count_calls is_execute k <= 1 /\
    count_calls is_get k = 1 /\
    count_calls is_generate k <= (match iteration q st with IContinue _ => 0 | _ => 1 end) /\
    (forall tid u, CallExecute tid u ∈ k -> is_Some (getTool tid)) /\
    (exists j, toolResults (iter_state (iteration q st)) = toolResults st ++ j /\
       map entry_call j `sublist_of` k).
Proof.
  run_iteration.
  all: eexists; split; [rewrite <- ?List.app_assoc; reflexivity|].
  all: cbn; repeat split; try lia.
  all: try (intros tid u Hin; rewrite ?elem_of_cons, ?elem_of_nil in Hin;
            destruct_or?; simplify_eq/=; done).
  all: try (exists []; rewrite app_nil_r; split; [done | apply sublist_nil_l]).
  all: eexists; split; [reflexivity|]; cbn.
  all: apply sublist_cons, sublist_skip, sublist_nil.
Qed.

Lemma loop_log fuel q st :
  exists k, log (loop_state (loop fuel q st)) = log st ++ k /\
    count_calls is_execute k <= count_calls is_get k /\
    count_calls is_generate k <= 1 /\
    (forall tid u, CallExecute tid u ∈ k -> is_Some (getTool tid)) /\
    (exists j, toolResults (loop_state (loop fuel q st)) = toolResults st ++ j /\
       map entry_call j `sublist_of` k).
Proof.
  revert st. induction fuel as [|f IH]; intros st; cbn [Runner.loop].
  { exists []. rewrite app_nil_r. cbn. repeat split; try lia; [set_solver|].
    exists []. rewrite app_nil_r. split; [done|apply sublist_nil_l]. }
  destruct (Nat.ltb _ _).
  2:{ exists []. rewrite app_nil_r. cbn. repeat split; try lia; [set_solver|].
      exists []. rewrite app_nil_r. split; [done|apply sublist_nil_l]. }
  destruct (iteration_log q (incr st)) as (k & Hl & He & Hg & Hgen & Hc & j & Ht & Hj).
  destruct (iteration q (incr st)) as [st'|st'|e st'] eqn:Ho; cbn [iter_state loop_state] in *.
  - destruct (IH st') as (k' & Hl' & He' & Hgen' & Hc' & j' & Ht' & Hj').
    exists (k ++ k'). rewrite Hl', Hl, List.app_assoc. cbn [log incr].
    rewrite !RunnerFacts.count_calls_app. repeat split; try lia.
    + intros tid u Hin. apply elem_of_app in Hin as [Hin|Hin]; eauto.
    + exists (j ++ j'). rewrite Ht', Ht, List.app_assoc. split; [done|].
      rewrite map_app. by apply sublist_app.
  - exists k. rewrite Hl. repeat split; try lia; [done|]. exists j. done.
  - exists k. rewrite Hl. repeat split; try lia; [done|]. exists j. done.
Qed.

Lemma post_log q o :
  exists k, pq_log (post q o) = log (loop_state o) ++ k /\
    count_calls is_execute k = 0 /\ count_calls is_get k = 0 /\
    count_calls is_generate k <= 1 /\
    (forall tr it resp ss l, post q o = PQOk tr it resp ss l -> tr = toolResults (loop_state o)).
Proof.
  unfold Runner.post, complete. destruct o as [st|e st]; cbn [loop_state].
  - destruct (finalResponse st).
    + exists []. rewrite app_nil_r. cbn. repeat split; try lia. by intros; simplify_eq.
    + destruct (generateResponse _ _ _); eexists; (split; [reflexivity|]); cbn;
        repeat split; try lia; by intros; simplify_eq.
  - exists []. rewrite app_nil_r. cbn. repeat split; try lia. discriminate.
Qed.

Lemma processQuery_logs q ss0 :
  exists kl kp, pq_log (processQuery q ss0) = kl ++ kp /\
    log (loop_state (loop maxIterations q (init_state mcs q ss0))) = kl /\
    count_calls is_execute kl <= count_calls is_get kl /\
    count_calls is_generate kl <= 1 /\
    (forall tid u, CallExecute tid u ∈ kl -> is_Some (getTool tid)) /\
    count_calls is_execute kp = 0 /\ count_calls is_get kp = 0 /\
    count_calls is_generate kp <= 1 /\
    (forall tr it resp ss l, processQuery q ss0 = PQOk tr it resp ss l ->
       l = kl ++ kp /\ map entry_call tr `sublist_of` kl).
Proof.
  unfold Runner.processQuery, Runner.run_from. cbn [iterations init_state].
  change (maxIterations - 0) with maxIterations.
  destruct (loop_log maxIterations q (init_state mcs q ss0)) as (kl & Hl & He & Hg & Hc & j & Ht & Hj).
  destruct (post_log q (loop maxIterations q (init_state mcs q ss0))) as (kp & Hp & Hpe & Hpg & Hpn & Hpt).
  change (log (init_state mcs q ss0)) with (@nil ExternalCall) in Hl.
  change (toolResults (init_state mcs q ss0)) with (@nil ToolResultEntry) in Ht.
  cbn [app] in Hl, Ht.
  exists kl, kp. split; [by rewrite Hp, Hl|].
  refine (conj Hl (conj He (conj Hg (conj Hc (conj Hpe (conj Hpg (conj Hpn _))))))).
  intros tr it resp ss l Hr. pose proof (Hpt _ _ _ _ _ Hr) as Htr.
  rewrite Hr, Hl in Hp. cbn in Hp. split; [done|]. rewrite Htr, Ht. done.
Qed.

(** A turn only ever executes tools the registry knows: every [executeTool]
    call in the log names a tool for which [getTool] returned one. *)
Theorem processQuery_executes_only_registered_tools (q : string) (ss0 : SessionState)
    (tid u : string) (Hin : CallExecute tid u ∈ pq_log (processQuery q ss0)) :
  is_Some (getTool tid).
Proof.
  destruct (processQuery_logs q ss0) as (kl & kp & Hl & _ & _ & _ & Hc & Hpe & _).
  rewrite Hl in Hin. apply elem_of_app in Hin as [Hin|Hin]; [by eapply Hc|].
  exfalso. clear -Hin Hpe. induction kp as [|c kp IH]; [set_solver|].
  apply elem_of_cons in Hin as [<-|Hin]; cbn in Hpe; [discriminate|].
  destruct (is_execute c); [discriminate|]. by apply IH.
Qed.

(** A turn makes at most [maxIterations] tool executions and at most two
    calls of [generateResponse]. *)
Theorem processQuery_call_bounds (q : string) (ss0 : SessionState) :
  count_calls is_execute (pq_log (processQuery q ss0)) <= maxIterations /\
  count_calls is_generate (pq_log (processQuery q ss0)) <= 2.
Proof.
  destruct (processQuery_logs q ss0) as (kl & kp & Hl & Hkl & He & Hg & _ & Hpe & Hpg & Hpn & _).
  destruct (RunnerFacts.loop_counts getToolCall getTool execute generateResponse
              maxIterations q (init_state mcs q ss0)) as [H1 H2]; [cbn; lia|].
  rewrite Hkl in H2. cbn [iterations log init_state count_calls] in H2.
  rewrite Hl, !RunnerFacts.count_calls_app. lia.
Qed.

(** On success, the returned tool results correspond, in order, to
    [executeTool] calls of the log, and the reported iteration count is the
    number of [getToolCall] calls. *)
Theorem processQuery_results_are_executed_calls (q : string) (ss0 : SessionState)
    (tr : list ToolResultEntry) (it : nat) (resp : string) (ss : SessionState)
    (l : list ExternalCall) (Hr : processQuery q ss0 = PQOk tr it resp ss l) :
  map entry_call tr `sublist_of` l /\ it = count_calls is_get l.
Proof.
  destruct (processQuery_logs q ss0) as (kl & kp & _ & Hkl & _ & _ & _ & _ & Hpg & _ & Ht).
  destruct (Ht _ _ _ _ _ Hr) as [-> Hs]. split; [by apply sublist_inserts_r|].
  revert Hr. unfold Runner.processQuery, Runner.run_from. cbn [iterations init_state].
  change (maxIterations - 0) with maxIterations. intros Hr.
  destruct (RunnerFacts.loop_counts getToolCall getTool execute generateResponse
              maxIterations q (init_state mcs q ss0)) as [_ H2]; [cbn; lia|].
  destruct (RunnerFacts.post_counts generateResponse q
              (loop maxIterations q (init_state mcs q ss0))) as [_ H4].
  rewrite (H4 _ _ _ _ _ Hr). rewrite Hkl in H2. cbn [iterations log init_state count_calls] in H2.
  rewrite RunnerFacts.count_calls_app. lia.
Qed.

End Oracles.

Lemma processQuery_executes_only_registered_tools_witness :
  is_Some (Scenarios.catalog_ls "ls").
Proof.
  apply (processQuery_executes_only_registered_tools Scenarios.model_ls_then_frobnicate
           Scenarios.catalog_ls Scenarios.exec_ok Scenarios.answer_best_effort Scenarios.no_trim
           "list files" Scenarios.ss_empty "ls" "toolu_1").
  apply list_elem_of_In. vm_compute. repeat first [left; reflexivity | right].
Defined.

Lemma processQuery_results_are_executed_calls_witness :
  exists tr it resp ss l,
    Runner.processQuery Scenarios.model_ls_then_frobnicate Scenarios.catalog_ls Scenarios.exec_ok
      Scenarios.answer_best_effort Scenarios.no_trim "list files" Scenarios.ss_empty
      = PQOk tr it resp ss l /\
    map entry_call tr `sublist_of` l /\ it = count_calls is_get l.
Proof.
  destruct (Runner.processQuery Scenarios.model_ls_then_frobnicate Scenarios.catalog_ls
              Scenarios.exec_ok Scenarios.answer_best_effort Scenarios.no_trim "list files"
              Scenarios.ss_empty) as [tr it resp ss l|e ss l] eqn:E.
  - exists tr, it, resp, ss, l. split; [reflexivity|].
    exact (processQuery_results_are_executed_calls Scenarios.model_ls_then_frobnicate
             Scenarios.catalog_ls Scenarios.exec_ok Scenarios.answer_best_effort Scenarios.no_trim
             "list files" Scenarios.ss_empty tr it resp ss l E).
  - vm_compute in E. discriminate.
Defined.

End RunnerExtraFacts.

(** * Further properties of [AgentService.processQuery] *)
Module ServiceExtraFacts.
Import Service AgentServiceOps AgentServiceRun ExtraProps.

Lemma not_in_filter_ne (sid : string) (l : list string) :
  sid ∉ filter (fun x => x <> sid) l.
Proof. intros Hin. apply list_elem_of_filter in Hin. naive_solver. Qed.







Lemma keeps_throw {A} e : keeps_sessions (fun st => (@RErr A e, st)).
Proof. done. Qed.











End ServiceExtraFacts.

(** * Properties of the tool-execution callbacks, the permission handler
    and [abortOperation] of [AgentService] *)
Module AgentServiceFacts.
Import Service AgentServiceOps ExtraProps.

Lemma set_manager_self (s : Service) : set_manager (manager s) s = s.
Proof. by destruct s. Qed.

Lemma set_manager_twice (m m' : TEM.Manager) (s : Service) :
  set_manager m' (set_manager m s) = set_manager m' s.
Proof. done. Qed.

Lemma filter_Forall_id {A} (P : A -> Prop) `{!forall x, Decision (P x)} (l : list A) :
  Forall P l -> filter P l = l.
Proof.
  induction 1 as [|x l Hx _ IH]; [done|]. rewrite filter_cons_True by done. by rewrite IH.
Qed.

Lemma find_executionId_None_filter sid tid s :
  find_executionId sid tid s = None ->
  filter (fun a => at_toolId a <> tid) (getActiveTools sid s) = getActiveTools sid s.
Proof.
  unfold find_executionId.
  destruct (list_find _ (getActiveTools sid s)) as [[]|] eqn:Hf; [discriminate|]. intros _.
  apply list_find_None in Hf. apply filter_Forall_id. apply Forall_impl with (1 := Hf). done.
Qed.

Lemma handleToolExecutionComplete_run (tid sid eid : string) (args result : TEM.Json)
    (t : Z) (st : St) (e : TEM.ToolExecutionState)
    (Hf : find_executionId sid tid (fst st) = Some eid) (Hne : eid <> EmptyString)
    (He : TEM.executions (manager (fst st)) !! eid = Some e) :
  let m := manager (fst st) in
  let st' := snd (handleToolExecutionComplete tid args result t sid st) in
  fst (handleToolExecutionComplete tid args result t sid st) = ROk tt /\
  TEM.executions (manager (fst st')) =
    <[eid := TEM.spread e (TEM.mkUpdate (Some TEM.COMPLETED) (Some result) None
               (Some (TEM.clock m)) (Some t) None None)]> (TEM.executions m) /\
  getActiveTools sid (fst st') = filter (fun a => at_toolId a <> tid) (getActiveTools sid (fst st)) /\
  activeToolArgs (snd st') !! args_key sid tid = None /\
  activeToolArgs (snd st') !! args_key sid eid = None.
Proof.
  destruct st as [s x]. cbn [fst snd] in *.
  unfold handleToolExecutionComplete, sbind, get_svc. cbn [fst snd]. rewrite Hf.
  rewrite (proj2 (String.eqb_neq eid EmptyString) Hne).
  unfold mgr. cbn [fst]. rewrite (ManagerExtraFacts.completeExecution_run _ _ _ _ _ He).
  unfold untrack, sbind, modify_svc, modify_extra. cbn [fst snd].
  unfold getActiveTools, set_activeTools, set_manager, set_activeToolArgs. cbn.
  rewrite lookup_insert_eq. cbn.
  split; [done|]. split; [done|]. split; [done|].
  split; apply lookup_delete_None; [right; apply lookup_delete_eq | by left].
Qed.

Lemma handleToolExecutionError_run (tid sid eid : string) (args : TEM.Json)
    (error : TEM.ExecError) (st : St) (e : TEM.ToolExecutionState)
    (Hf : find_executionId sid tid (fst st) = Some eid) (Hne : eid <> EmptyString)
    (He : TEM.executions (manager (fst st)) !! eid = Some e) :
  let m := manager (fst st) in
  let st' := snd (handleToolExecutionError tid args error sid st) in
  fst (handleToolExecutionError tid args error sid st) = ROk tt /\
  TEM.executions (manager (fst st')) =
    <[eid := TEM.spread e (TEM.mkUpdate (Some TEM.ERROR) None (Some error)
               (Some (TEM.clock m)) (Some (TEM.clock m - TEM.exec_startTime e)%Z) None None)]>
      (TEM.executions m) /\
  getActiveTools sid (fst st') = filter (fun a => at_toolId a <> tid) (getActiveTools sid (fst st)) /\
  activeToolArgs (snd st') !! args_key sid tid = None /\
  activeToolArgs (snd st') !! args_key sid eid = None.
Proof.
  destruct st as [s x]. cbn [fst snd] in *.
  unfold handleToolExecutionError, sbind, get_svc. cbn [fst snd]. rewrite Hf.
  rewrite (proj2 (String.eqb_neq eid EmptyString) Hne).
  unfold mgr. cbn [fst]. rewrite (ManagerExtraFacts.failExecution_run _ _ _ _ He).
  unfold untrack, sbind, modify_svc, modify_extra. cbn [fst snd].
  unfold getActiveTools, set_activeTools, set_manager, set_activeToolArgs. cbn.
  rewrite lookup_insert_eq. cbn.
  split; [done|]. split; [done|]. split; [done|].
  split; apply lookup_delete_None; [right; apply lookup_delete_eq | by left].
Qed.

Lemma abort_tool_run sid ts tool (st : St) :
  let m := manager (fst st) in
  let r := abort_tool sid ts tool st in
  fst r = ROk tt /\
  exists m', fst (snd r) = set_manager m' (fst st) /\
    activeToolArgs (snd (snd r)) = activeToolArgs (snd st) /\
    abortTimestamps (snd (snd r)) = abortTimestamps (snd st) /\
    (forall id, id <> at_executionId tool -> TEM.executions m' !! id = TEM.executions m !! id) /\
    (forall id, is_Some (TEM.executions m !! id) -> is_Some (TEM.executions m' !! id)) /\
    (at_executionId tool <> EmptyString -> is_Some (TEM.executions m !! at_executionId tool) ->
       TEM.status_of (at_executionId tool) m' = Some TEM.ABORTED).
Proof.
  destruct st as [s x]. cbn [fst snd]. unfold abort_tool.
  destruct (String.eqb_spec (at_executionId tool) EmptyString) as [Hz|Hnz].
  - split; [done|]. exists (manager s). rewrite set_manager_self. cbn.
    repeat split; done.
  - unfold mgr. cbn [fst snd].
    destruct (TEM.executions (manager s) !! at_executionId tool) as [e|] eqn:He.
    + rewrite (ManagerExtraFacts.abortExecution_run _ _ _ He). cbn [fst snd].
      split; [done|]. eexists. split; [reflexivity|]. cbn [TEM.executions snd activeToolArgs abortTimestamps].
      repeat split.
      * intros id Hid. by simplify_map_eq.
      * intros id Hid. destruct (decide (id = at_executionId tool)) as [->|Hne].
        -- simplify_map_eq. by eexists.
        -- by simplify_map_eq.
      * intros _ _. unfold TEM.status_of. by simplify_map_eq.
    + rewrite (ManagerExtraFacts.abortExecution_missing _ _ He). cbn.
      split; [done|]. exists (manager s). cbn.
      repeat split; try done.
Qed.

Lemma abort_tools_run sid ts tools (st : St) :
  let m := manager (fst st) in
  let r := abort_tools sid ts tools st in
  fst r = ROk tt /\
  exists m', fst (snd r) = set_manager m' (fst st) /\
    activeToolArgs (snd (snd r)) = activeToolArgs (snd st) /\
    abortTimestamps (snd (snd r)) = abortTimestamps (snd st) /\
    (forall id, id ∉ map at_executionId tools ->
       TEM.executions m' !! id = TEM.executions m !! id) /\
    (forall id, is_Some (TEM.executions m !! id) -> is_Some (TEM.executions m' !! id)) /\
    (forall tool, tool ∈ tools -> at_executionId tool <> EmptyString ->
       is_Some (TEM.executions m !! at_executionId tool) ->
       TEM.status_of (at_executionId tool) m' = Some TEM.ABORTED).
Proof.
  revert st. induction tools as [|t rest IH]; intros st.
  - cbn. split; [done|]. exists (manager (fst st)). rewrite set_manager_self.
    repeat split; try done. intros tool Hin. by apply elem_of_nil in Hin.
  - cbn [abort_tools]. unfold sbind.
    destruct (abort_tool_run sid ts t st) as (Hr1 & m1 & Hs1 & Ha1 & Hb1 & Hu1 & Hp1 & Hab1).
    destruct (abort_tool sid ts t st) as [r1 st1] eqn:E1. cbn [fst snd] in *. subst r1.
    destruct (IH st1) as (Hr2 & m2 & Hs2 & Ha2 & Hb2 & Hu2 & Hp2 & Hab2).
    rewrite Hs1 in Hs2, Hu2, Hp2, Hab2. cbn [manager set_manager] in Hu2, Hp2, Hab2.
    rewrite set_manager_twice in Hs2.
    split; [done|]. exists m2. split; [done|].
    split; [by rewrite Ha2|]. split; [by rewrite Hb2|]. split; [|split].
    + intros id Hid. cbn in Hid. apply not_elem_of_cons in Hid as [Hne Hid].
      rewrite Hu2 by done. by apply Hu1.
    + intros id Hid. by apply Hp2, Hp1.
    + intros tool Hin Hz Hex. apply elem_of_cons in Hin as [->|Hin].
      * destruct (decide (at_executionId t ∈ map at_executionId rest)) as [Hr|Hr].
        -- apply list_elem_of_fmap in Hr as (t' & Heq & Ht').
           rewrite Heq in Hz, Hex |- *. apply Hab2; [done|done|]. by apply Hp1.
        -- unfold TEM.status_of. rewrite Hu2 by done. by apply Hab1.
      * apply Hab2; [done|done|]. by apply Hp1.
Qed.

Lemma service_resolve_run (pid sid tid eid : string) (args : TEM.Json) (granted : bool)
    (s1 : Service) (i : nat) (e1 : TEM.ToolExecutionState) (p : TEM.PermissionRequestState)
    (Hpr : permissionRequests s1 !! pid = Some (mkPR sid tid args))
    (Hat : list_find (fun t => at_toolId t = tid) (getActiveTools sid s1) =
             Some (i, mkActiveTool tid eid))
    (Hne : eid <> EmptyString) (Hpne : pid <> EmptyString)
    (He : TEM.executions (manager s1) !! eid = Some e1) (Hid : TEM.exec_id e1 = eid)
    (Hst : TEM.exec_status e1 = TEM.AWAITING_PERMISSION)
    (Hidx : eid ∈ default [] (TEM.sessionExecutions (manager s1) !! sid))
    (Hep : TEM.executionPermissions (manager s1) !! eid = Some pid)
    (Hpp : TEM.permissionRequests (manager s1) !! pid = Some p)
    (Hpi : TEM.perm_id p = pid) (Hpe : TEM.perm_executionId p = eid) :
  fst (resolvePermission pid granted s1) = true /\
  resolutions (snd (resolvePermission pid granted s1)) = resolutions s1 ++ [(pid, granted)] /\
  permissionRequests (snd (resolvePermission pid granted s1)) !! pid = None /\
  TEM.status_of eid (manager (snd (resolvePermission pid granted s1))) =
    Some (if granted then TEM.RUNNING else TEM.ERROR).
Proof.
  unfold resolvePermission. rewrite Hpr. cbn [activeTools pr_sessionId pr_toolId].
  unfold getActiveTools in Hat. rewrite Hat. cbn [at_executionId].
  rewrite (proj2 (String.eqb_neq eid EmptyString) Hne). cbn [manager].
  match goal with |- context [if existsb ?f ?l then _ else _] =>
    assert (Hex : existsb f l = true) end.
  { apply existsb_exists. exists p. split; [|by rewrite Hpi, String.eqb_refl].
    apply list_elem_of_In.
    apply list_elem_of_omap. exists e1. split.
    - apply list_elem_of_filter. split; [by rewrite Hst|].
      unfold TEM.getExecutionsForSession. apply list_elem_of_omap. by exists eid.
    - unfold TEM.getPermissionRequestForExecution. rewrite Hid, Hep.
      by rewrite (proj2 (String.eqb_neq pid EmptyString) Hpne). }
  rewrite Hex.
  rewrite <- Hpe in He.
  destruct (ManagerExtraFacts.resolvePermission_run (manager s1) pid p e1 granted Hpp He) as [[q Hq] Hs].
  destruct (TEM.resolvePermission pid granted (manager s1)) as [r m'] eqn:Er.
  cbn in Hq. subst r. cbn [fst snd] in *. rewrite Hpe in Hs.
  split; [done|]. split; [done|]. split; [by apply lookup_delete_eq|]. exact Hs.
Qed.

(** [handleToolExecutionComplete] for a tool whose first active entry has
    an execution id that the manager knows: the execution is completed with
    the result and time given, every active entry of that tool leaves the
    session's [activeTools], and both stored argument keys are removed. *)
Theorem handleToolExecutionComplete_finishes (tid sid eid : string) (args result : TEM.Json)
    (t : Z) (st : St) (e : TEM.ToolExecutionState)
    (Hf : find_executionId sid tid (fst st) = Some eid) (Hne : eid <> EmptyString)
    (He : TEM.executions (manager (fst st)) !! eid = Some e) :
  let m := manager (fst st) in
  let st' := snd (handleToolExecutionComplete tid args result t sid st) in
  fst (handleToolExecutionComplete tid args result t sid st) = ROk tt /\
  TEM.executions (manager (fst st')) =
    <[eid := TEM.spread e (TEM.mkUpdate (Some TEM.COMPLETED) (Some result) None
               (Some (TEM.clock m)) (Some t) None None)]> (TEM.executions m) /\
  getActiveTools sid (fst st') = filter (fun a => at_toolId a <> tid) (getActiveTools sid (fst st)) /\
  activeToolArgs (snd st') !! args_key sid tid = None /\
  activeToolArgs (snd st') !! args_key sid eid = None.
Proof. exact (handleToolExecutionComplete_run tid sid eid args result t st e Hf Hne He). Qed.

(** [handleToolExecutionError] for a tool whose first active entry has an
    execution id that the manager knows: the execution is failed with the
    error, every active entry of that tool leaves the session's
    [activeTools], and both stored argument keys are removed. *)
Theorem handleToolExecutionError_finishes (tid sid eid : string) (args : TEM.Json)
    (error : TEM.ExecError) (st : St) (e : TEM.ToolExecutionState)
    (Hf : find_executionId sid tid (fst st) = Some eid) (Hne : eid <> EmptyString)
    (He : TEM.executions (manager (fst st)) !! eid = Some e) :
  let m := manager (fst st) in
  let st' := snd (handleToolExecutionError tid args error sid st) in
  fst (handleToolExecutionError tid args error sid st) = ROk tt /\
  TEM.executions (manager (fst st')) =
    <[eid := TEM.spread e (TEM.mkUpdate (Some TEM.ERROR) None (Some error)
               (Some (TEM.clock m)) (Some (TEM.clock m - TEM.exec_startTime e)%Z) None None)]>
      (TEM.executions m) /\
  getActiveTools sid (fst st') = filter (fun a => at_toolId a <> tid) (getActiveTools sid (fst st)) /\
  activeToolArgs (snd st') !! args_key sid tid = None /\
  activeToolArgs (snd st') !! args_key sid eid = None.
Proof. exact (handleToolExecutionError_run tid sid eid args error st e Hf Hne He). Qed.

(** Both callbacks fall back to emitting their event directly, changing
    nothing else, when the tool has no active entry or its first entry has
    an empty execution id. *)
Theorem tool_callbacks_fallback_without_execution (tid sid : string) (args result : TEM.Json)
    (t : Z) (error : TEM.ExecError) (st : St)
    (Hf : match find_executionId sid tid (fst st) with
          | Some eid => eid = EmptyString | None => True end) :
  handleToolExecutionComplete tid args result t sid st =
    (ROk tt, (fst st, emit_extra (TOOL_EXECUTION_COMPLETED sid tid result t) (snd st))) /\
  handleToolExecutionError tid args error sid st =
    (ROk tt, (fst st, emit_extra (TOOL_EXECUTION_ERROR sid tid error) (snd st))).
Proof.
  destruct st as [s x]. cbn [fst snd] in *.
  unfold handleToolExecutionComplete, handleToolExecutionError, sbind, get_svc, modify_extra.
  cbn [fst snd].
  destruct (find_executionId sid tid s) as [eid|]; [subst eid|]; done.
Qed.

(** [abortOperation] on a session that is busy: it answers [true], the
    session is no longer processing nor in the active set, the abort time
    is recorded, every active tool whose execution the manager knows is
    [ABORTED] (other executions are untouched), the active tools are kept,
    and a second [abortOperation] answers [false]. *)
Theorem abortOperation_aborts_busy_session (sid : string) (ts ts' : Z) (st : St) (se : Session)
    (Hs : sessions (fst st) !! sid = Some se) (Hb : busy se sid (fst st) = true) :
  let m := manager (fst st) in
  let r := abortOperation sid ts st in
  let s' := fst (snd r) in
  fst r = ROk true /\
  sessions s' !! sid = Some (mkSession false (state se)) /\
  (sid ∉ activeProcessingSessionIds s') /\
  abortTimestamps (snd (snd r)) !! sid = Some ts /\
  getActiveTools sid s' = getActiveTools sid (fst st) /\
  (forall tool, tool ∈ getActiveTools sid (fst st) -> at_executionId tool <> EmptyString ->
     is_Some (TEM.executions m !! at_executionId tool) ->
     TEM.status_of (at_executionId tool) (manager s') = Some TEM.ABORTED) /\
  (forall id, id ∉ map at_executionId (getActiveTools sid (fst st)) ->
     TEM.executions (manager s') !! id = TEM.executions m !! id) /\
  fst (abortOperation sid ts' (snd r)) = ROk false.
Proof.
  intros m r s'. destruct st as [s x]. cbn [fst snd] in Hs, Hb, m, r, s'.
  assert (E : exists m' x2, abortOperation sid ts (s, x) =
      (ROk true, (set_manager m' (set_active (filter (fun y => y <> sid)) (setProcessing sid false s)), x2)) /\
      abortTimestamps x2 !! sid = Some ts /\
    (forall tool, tool ∈ getActiveTools sid s -> at_executionId tool <> EmptyString ->
       is_Some (TEM.executions m !! at_executionId tool) ->
       TEM.status_of (at_executionId tool) m' = Some TEM.ABORTED) /\
    (forall id, id ∉ map at_executionId (getActiveTools sid s) ->
       TEM.executions m' !! id = TEM.executions m !! id)).
  { unfold abortOperation, sbind, get_svc, modify_extra, modify_svc. cbn [fst snd].
    rewrite Hs, Hb. cbn [negb fst snd].
    match goal with |- context [abort_tools sid ts ?l ?stm] =>
      destruct (abort_tools_run sid ts l stm) as (Hr & m' & Hs' & Ha & Hb' & Hu & Hp & Hab);
      destruct (abort_tools sid ts l stm) as [r2 st2] eqn:E2 end.
    cbn [fst snd] in *. subst r2. destruct st2 as [s2 x2]. cbn [fst snd] in *. subst s2.
    exists m', x2. unfold sret. split; [done|].
    rewrite Hb'. cbn. split; [by rewrite lookup_insert_eq|]. split; [exact Hab|exact Hu]. }
  destruct E as (m' & x2 & E & Hts & Hab & Hu).
  subst r s'. rewrite E. cbn [fst snd].
  assert (Hsess : sessions (set_manager m' (set_active (filter (fun y => y <> sid))
            (setProcessing sid false s))) !! sid = Some (mkSession false (state se))).
  { cbn. rewrite Hs. by rewrite lookup_insert_eq. }
  split; [done|]. split; [done|]. split; [cbn; apply ServiceExtraFacts.not_in_filter_ne|].
  split; [done|]. split; [done|]. split; [exact Hab|]. split; [exact Hu|].
  unfold abortOperation, sbind, get_svc. cbn [fst snd]. rewrite Hsess.
  unfold busy. cbn [isProcessing orb].
  rewrite bool_decide_eq_false_2; [done|]. cbn. apply ServiceExtraFacts.not_in_filter_ne.
Qed.

(** [abortOperation] on an unknown session throws [SessionNotFoundError],
    and on an idle one answers [false]; in both cases nothing changes. *)
Theorem abortOperation_without_work (sid : string) (ts : Z) (st : St) :
  match sessions (fst st) !! sid with
  | None => abortOperation sid ts st = (RErr (SessionNotFoundError sid), st)
  | Some se => busy se sid (fst st) = false -> abortOperation sid ts st = (ROk false, st)
  end.
Proof.
  unfold abortOperation, sbind, get_svc.
  destruct (sessions (fst st) !! sid) as [se|]; [|done].
  intros Hb. rewrite Hb. done.
Qed.

Section Callbacks.
Variable toolNameOf : string -> option string.
Variable summarize : string -> TEM.Json -> string.

Lemma handleToolExecutionStart_run (tid sid : string) (args : TEM.Json) (st : St) :
  let eid := "uuid-" +s pretty (TEM.uuid_next (manager (fst st))) in
  let st1 := snd (handleToolExecutionStart toolNameOf summarize tid args sid st) in
  fst (handleToolExecutionStart toolNameOf summarize tid args sid st) = ROk tt /\
  (exists e1, TEM.executions (manager (fst st1)) !! eid = Some e1 /\
              TEM.exec_status e1 = TEM.RUNNING) /\
  getActiveTools sid (fst st1) = getActiveTools sid (fst st) ++ [mkActiveTool tid eid] /\
  activeToolArgs (snd st1) =
    <[args_key sid eid := args]> (<[args_key sid tid := args]> (activeToolArgs (snd st))).
Proof.
  destruct st as [s x]. cbn [fst snd] in *.
  unfold handleToolExecutionStart, sbind, mgr, modify_svc, modify_extra, sret.
  unfold TEM.createExecution, TEM.startExecution, TEM.updateStatus, TEM.updateExecution,
    TEM.getExecutionOrThrow, TEM.now, TEM.bind, TEM.gets, TEM.emitEvent, TEM.modify, TEM.ret,
    TEM.uuidv4, TEM.set_executions, TEM.set_sessionExecutions.
  cbn [fst snd manager set_manager TEM.executions TEM.sessionExecutions TEM.permissionRequests
       TEM.sessionPermissions TEM.executionPermissions TEM.events TEM.clock TEM.uuid_next
       TEM.exec_id].
  repeat (rewrite lookup_insert_eq; cbn [fst snd manager set_manager TEM.executions
       TEM.sessionExecutions TEM.permissionRequests TEM.sessionPermissions
       TEM.executionPermissions TEM.events TEM.clock TEM.uuid_next TEM.exec_id]).
  split; [reflexivity|]. split; [|split].
  - cbn [manager push_active set_activeTools set_manager TEM.executions].
    rewrite lookup_insert_eq. by eexists.
  - unfold getActiveTools, push_active, set_activeTools. cbn [activeTools set_manager fst].
    by rewrite lookup_insert_eq.
  - done.
Qed.

(** A tool run seen through the callbacks: [handleToolExecutionStart]
    creates an execution with the next identifier, running and listed as
    the tool's active entry; then either [handleToolExecutionComplete]
    completes it with its result, or [handleToolExecutionError] fails it
    with its error, and in both cases the session's active tools are back
    to what they were before the start. *)
Theorem tool_start_then_finish (tid sid : string) (args result : TEM.Json) (t : Z)
    (error : TEM.ExecError) (st : St)
    (Hnone : find_executionId sid tid (fst st) = None) :
  let eid := "uuid-" +s pretty (TEM.uuid_next (manager (fst st))) in
  let st1 := snd (handleToolExecutionStart toolNameOf summarize tid args sid st) in
  let c := handleToolExecutionComplete tid args result t sid st1 in
  let f := handleToolExecutionError tid args error sid st1 in
  fst (handleToolExecutionStart toolNameOf summarize tid args sid st) = ROk tt /\
  TEM.status_of eid (manager (fst st1)) = Some TEM.RUNNING /\
  find_executionId sid tid (fst st1) = Some eid /\
  fst c = ROk tt /\
  TEM.status_of eid (manager (fst (snd c))) = Some TEM.COMPLETED /\
  option_map TEM.exec_result (TEM.executions (manager (fst (snd c))) !! eid) = Some (Some result) /\
  getActiveTools sid (fst (snd c)) = getActiveTools sid (fst st) /\
  fst f = ROk tt /\
  TEM.status_of eid (manager (fst (snd f))) = Some TEM.ERROR /\
  option_map TEM.exec_error (TEM.executions (manager (fst (snd f))) !! eid) = Some (Some error) /\
  getActiveTools sid (fst (snd f)) = getActiveTools sid (fst st).
Proof.
  intros eid st1 c f.
  destruct (handleToolExecutionStart_run tid sid args st) as (Hok & (e1 & He1 & Hs1) & Ha & _).
  fold eid st1 in He1, Ha, Hok.
  assert (Hfind : find_executionId sid tid (fst st1) = Some eid).
  { revert Hnone. unfold find_executionId. rewrite Ha.
    destruct (list_find _ (getActiveTools sid (fst st))) as [[]|] eqn:Hf; [discriminate|].
    intros _. rewrite list_find_app_r by done. cbn. by rewrite decide_True. }
  assert (Hne : eid <> EmptyString) by done.
  destruct (handleToolExecutionComplete_run tid sid eid args result t st1 e1 Hfind Hne He1)
    as (Hc & Hce & Hca & _).
  destruct (handleToolExecutionError_run tid sid eid args error st1 e1 Hfind Hne He1)
    as (Hf & Hfe & Hfa & _).
  fold c in Hc, Hce, Hca. fold f in Hf, Hfe, Hfa.
  clearbody c f st1.
  unfold TEM.status_of. rewrite He1, Hce, Hfe, Hca, Hfa, !lookup_insert_eq, Ha.
  rewrite filter_app, find_executionId_None_filter by done.
  rewrite filter_cons_False by (cbn; tauto). rewrite filter_nil, List.app_nil_r. cbn [option_map TEM.spread TEM.exec_status TEM.exec_result TEM.exec_error TEM.over TEM.over_opt TEM.u_status TEM.u_result TEM.u_error].
  repeat split; try done. cbn. by rewrite Hs1.
Qed.

Variable permissionMode : string.
Variable allowedTools : list string.

Lemma handler_run (sid tid : string) (args : TEM.Json) (s : Service) (x : Extra)
    (Hmode : (String.eqb permissionMode "auto" && existsb (String.eqb tid) allowedTools) = false)
    (Hnone : find_executionId sid tid s = None) :
  let n := TEM.uuid_next (manager s) in
  let eid := "uuid-" +s pretty n in
  let pid := "uuid-" +s pretty (n + 1)%N in
  let r := requestPermissionHandler toolNameOf summarize permissionMode allowedTools sid tid args (s, x) in
  fst r = ROk (Pending pid) /\ snd (snd r) = x /\
  match match fst (snd r) with s1 => (s1, manager s1) end with (s1, m1) =>
  (exists e1, TEM.executions m1 !! eid = Some e1 /\ TEM.exec_id e1 = eid /\
     TEM.exec_status e1 = TEM.AWAITING_PERMISSION) /\
  eid ∈ default [] (TEM.sessionExecutions m1 !! sid) /\
  TEM.executionPermissions m1 !! eid = Some pid /\
  (exists p, TEM.permissionRequests m1 !! pid = Some p /\ TEM.perm_id p = pid /\
     TEM.perm_executionId p = eid) /\
  permissionRequests s1 !! pid = Some (mkPR sid tid args) /\
  getActiveTools sid s1 = getActiveTools sid s ++ [mkActiveTool tid eid] /\
  resolutions s1 = resolutions s
  end.
Proof.
  unfold requestPermissionHandler. rewrite Hmode.
  unfold sbind, get_svc. cbn [fst snd]. rewrite Hnone.
  unfold mgr, modify_svc, sret.
  unfold TEM.createExecution, TEM.requestPermission, TEM.updateStatus, TEM.updateExecution,
    TEM.getExecutionOrThrow, TEM.now, TEM.bind, TEM.gets, TEM.emitEvent, TEM.modify, TEM.ret,
    TEM.uuidv4, TEM.set_executions, TEM.set_sessionExecutions, TEM.set_permissionRequests,
    TEM.set_sessionPermissions, TEM.set_executionPermissions.
  cbn [fst snd manager set_manager TEM.executions TEM.sessionExecutions TEM.permissionRequests
       TEM.sessionPermissions TEM.executionPermissions TEM.events TEM.clock TEM.uuid_next
       TEM.exec_id push_active set_activeTools set_permissionRequests].
  repeat (rewrite lookup_insert_eq; cbn [fst snd manager set_manager TEM.executions
       TEM.sessionExecutions TEM.permissionRequests TEM.sessionPermissions
       TEM.executionPermissions TEM.events TEM.clock TEM.uuid_next TEM.exec_id
       push_active set_activeTools set_permissionRequests]).
  split; [reflexivity|]. split; [reflexivity|].
  split; [eexists; split; [reflexivity|done]|].
  split; [unfold TEM.index_add; rewrite lookup_insert_eq; apply ManagerExtraFacts.set_add_elem|].
  split; [reflexivity|]. split; [eexists; split; [reflexivity|done]|].
  split; [unfold set_permissionRequests; cbn [permissionRequests TEM.perm_id];
           by rewrite lookup_insert_eq|].
  split; [|reflexivity].
  unfold getActiveTools. cbn. by rewrite lookup_insert_eq.
Qed.

(** The permission flow of a session: when the tool is not auto-approved
    and has no active entry, the handler creates an execution with the next
    identifier, requests the permission (the identifier after) and leaves
    the answer pending; [resolvePermission] of the service with that
    identifier then answers [true], calls the resolver once, forgets the
    request and moves the execution to [RUNNING] if granted, to [ERROR] if
    denied. *)
Theorem permission_handler_then_resolve (sid tid : string) (args : TEM.Json) (granted : bool)
    (s : Service) (x : Extra)
    (Hmode : (String.eqb permissionMode "auto" && existsb (String.eqb tid) allowedTools) = false)
    (Hnone : find_executionId sid tid s = None) :
  let n := TEM.uuid_next (manager s) in
  let eid := "uuid-" +s pretty n in
  let pid := "uuid-" +s pretty (n + 1)%N in
  let r := requestPermissionHandler toolNameOf summarize permissionMode allowedTools sid tid args (s, x) in
  let s1 := fst (snd r) in
  fst r = ROk (Pending pid) /\
  TEM.status_of eid (manager s1) = Some TEM.AWAITING_PERMISSION /\
  fst (resolvePermission pid granted s1) = true /\
  resolutions (snd (resolvePermission pid granted s1)) = resolutions s ++ [(pid, granted)] /\
  permissionRequests (snd (resolvePermission pid granted s1)) !! pid = None /\
  TEM.status_of eid (manager (snd (resolvePermission pid granted s1))) =
    Some (if granted then TEM.RUNNING else TEM.ERROR).
Proof.
  intros n eid pid r s1.
  destruct (handler_run sid tid args s x Hmode Hnone) as (Hr & _ & H).
  fold n eid pid r in Hr, H. fold s1 in H.
  destruct H as ((e1 & He & Hid & Hst) & Hidx & Hep & (p & Hpp & Hpi & Hpe) & Hpr & Ha & Hres).
  clearbody s1.
  assert (Hat : list_find (fun t => at_toolId t = tid) (getActiveTools sid s1) =
             Some (length (getActiveTools sid s), mkActiveTool tid eid)).
  { revert Hnone. unfold find_executionId. rewrite Ha.
    destruct (list_find _ (getActiveTools sid s)) as [[]|] eqn:Hf; [discriminate|].
    intros _. rewrite list_find_app_r by done. cbn. rewrite decide_True by done.
    cbn. done. }
  destruct (service_resolve_run pid sid tid eid args granted s1 _ e1 p Hpr Hat ltac:(done)
              ltac:(done) He Hid Hst Hidx Hep Hpp Hpi Hpe) as (H1 & H2 & H3 & H4).
  split; [done|]. split; [unfold TEM.status_of; rewrite He; cbn; by rewrite Hst|].
  rewrite H2, Hres. done.
Qed.

End Callbacks.

Lemma handleToolExecutionComplete_finishes_witness :
  exists e, TEM.executions (manager (fst st_ls_running)) !! "uuid-0" = Some e /\
  let m := manager (fst st_ls_running) in
  let st' := snd (handleToolExecutionComplete "ls" "{}" "[a,b]" 7 "s1" st_ls_running) in
  fst (handleToolExecutionComplete "ls" "{}" "[a,b]" 7 "s1" st_ls_running) = ROk tt /\
  TEM.executions (manager (fst st')) =
    <[ "uuid-0" := TEM.spread e (TEM.mkUpdate (Some TEM.COMPLETED) (Some "[a,b]") None
               (Some (TEM.clock m)) (Some 7%Z) None None)]> (TEM.executions m) /\
  getActiveTools "s1" (fst st') =
    filter (fun a => at_toolId a <> "ls") (getActiveTools "s1" (fst st_ls_running)) /\
  activeToolArgs (snd st') !! args_key "s1" "ls" = None /\
  activeToolArgs (snd st') !! args_key "s1" "uuid-0" = None.
Proof.
  eexists. split; [reflexivity|].
  apply (handleToolExecutionComplete_finishes "ls" "s1" "uuid-0" "{}" "[a,b]" 7 st_ls_running);
    [reflexivity | done | reflexivity].
Defined.

Lemma handleToolExecutionError_finishes_witness :
  exists e, TEM.executions (manager (fst st_ls_running)) !! "uuid-0" = Some e /\
  let m := manager (fst st_ls_running) in
  let st' := snd (handleToolExecutionError "ls" "{}" (TEM.mkExecError "boom" None) "s1"
                    st_ls_running) in
  fst (handleToolExecutionError "ls" "{}" (TEM.mkExecError "boom" None) "s1" st_ls_running)
    = ROk tt /\
  TEM.executions (manager (fst st')) =
    <[ "uuid-0" := TEM.spread e (TEM.mkUpdate (Some TEM.ERROR) None
               (Some (TEM.mkExecError "boom" None)) (Some (TEM.clock m))
               (Some (TEM.clock m - TEM.exec_startTime e)%Z) None None)]> (TEM.executions m) /\
  getActiveTools "s1" (fst st') =
    filter (fun a => at_toolId a <> "ls") (getActiveTools "s1" (fst st_ls_running)) /\
  activeToolArgs (snd st') !! args_key "s1" "ls" = None /\
  activeToolArgs (snd st') !! args_key "s1" "uuid-0" = None.
Proof.
  eexists. split; [reflexivity|].
  apply (handleToolExecutionError_finishes "ls" "s1" "uuid-0" "{}" (TEM.mkExecError "boom" None)
           st_ls_running); [reflexivity | done | reflexivity].
Defined.

Lemma tool_callbacks_fallback_without_execution_witness :
  let st := (service_idle, extra_empty) in
  handleToolExecutionComplete "ls" "{}" "[a,b]" 7 "s1" st =
    (ROk tt, (fst st, emit_extra (TOOL_EXECUTION_COMPLETED "s1" "ls" "[a,b]" 7) (snd st))) /\
  handleToolExecutionError "ls" "{}" (TEM.mkExecError "boom" None) "s1" st =
    (ROk tt, (fst st, emit_extra (TOOL_EXECUTION_ERROR "s1" "ls" (TEM.mkExecError "boom" None))
                        (snd st))).
Proof.
  exact (tool_callbacks_fallback_without_execution "ls" "s1" "{}" "[a,b]" 7
           (TEM.mkExecError "boom" None) (service_idle, extra_empty) I).
Defined.

Lemma abortOperation_aborts_busy_session_witness :
  let r := abortOperation "s1" 100 st_busy_ls_running in
  fst r = ROk true /\
  TEM.status_of "uuid-0" (manager (fst (snd r))) = Some TEM.ABORTED /\
  fst (abortOperation "s1" 200 (snd r)) = ROk false.
Proof.
  destruct (abortOperation_aborts_busy_session "s1" 100 200 st_busy_ls_running
              (mkSession true Scenarios.ss_empty) eq_refl eq_refl)
    as (H1 & _ & _ & _ & _ & H6 & _ & H8).
  split; [exact H1|]. split; [|exact H8].
  apply (H6 (mkActiveTool "ls" "uuid-0")); [by left | done | by eexists].
Defined.

Lemma abortOperation_without_work_witness :
  abortOperation "s1" 100 (service_idle, extra_empty) = (ROk false, (service_idle, extra_empty)) /\
  abortOperation "s9" 100 (service_idle, extra_empty) =
    (RErr (SessionNotFoundError "s9"), (service_idle, extra_empty)).
Proof.
  split.
  - exact (abortOperation_without_work "s1" 100 (service_idle, extra_empty) eq_refl).
  - exact (abortOperation_without_work "s9" 100 (service_idle, extra_empty)).
Defined.

Lemma tool_start_then_finish_witness :
  let st1 := snd (handleToolExecutionStart Scenarios.catalog_ls summarize_fixed "ls" "{}" "s1"
                    (service_idle, extra_empty)) in
  let c := handleToolExecutionComplete "ls" "{}" "[a,b]" 7 "s1" st1 in
  TEM.status_of "uuid-0" (manager (fst (snd c))) = Some TEM.COMPLETED /\
  getActiveTools "s1" (fst (snd c)) = getActiveTools "s1" service_idle.
Proof.
  destruct (tool_start_then_finish Scenarios.catalog_ls summarize_fixed "ls" "s1" "{}" "[a,b]" 7
              (TEM.mkExecError "boom" None) (service_idle, extra_empty) eq_refl)
    as (_ & _ & _ & _ & H5 & _ & H7 & _).
  split; [exact H5 | exact H7].
Defined.

Lemma permission_handler_then_resolve_witness :
  let r := requestPermissionHandler Scenarios.catalog_ls summarize_fixed "interactive" []
             "s1" "ls" "{}" (service_idle, extra_empty) in
  let s1 := fst (snd r) in
  fst r = ROk (Pending "uuid-1") /\
  fst (resolvePermission "uuid-1" true s1) = true /\
  TEM.status_of "uuid-0" (manager (snd (resolvePermission "uuid-1" true s1))) =
    Some TEM.RUNNING.
Proof.
  destruct (permission_handler_then_resolve Scenarios.catalog_ls summarize_fixed "interactive" []
              "s1" "ls" "{}" true service_idle extra_empty eq_refl eq_refl)
    as (H1 & _ & H3 & _ & _ & H6).
  split; [exact H1|]. split; [exact H3 | exact H6].
Defined.

End AgentServiceFacts.
